(** * weathergrab.py: forecast cache, half-hour resampling and chart geometry

    A shallow embedding of [weathergrab.py] (the e-paper weather chart):
    Python values are [None], [int] (as [Z]) or [float] (IEEE binary64, Rocq's
    primitive floats); exceptions are an explicit result type; the cache file,
    the forecast service, standard output and the display are fields of a
    [world] threaded through the effectful parts of the script. *)

From Stdlib Require Import ZArith Lia List Bool String Ascii Floats Sorted.
From Stdlib Require Import DecimalString.
From Equations Require Import Equations.
Import ListNotations.

Set Warnings "-inexact-float".
Open Scope Z_scope.

(** ** Exceptions and results *)

Inductive exn : Type :=
| TypeError
| ValueError
| IndexError
| AttributeError
| OverflowError
| ZeroDivisionError
| Exception_ (msg : string)
| SystemExit (code : Z).

Inductive result (A : Type) : Type :=
| Ok (a : A)
| Raise (e : exn).
Arguments Ok {A} a.
Arguments Raise {A} e.

Definition rbind {A B : Type} (c : result A) (k : A -> result B) : result B :=
  match c with
  | Ok a => k a
  | Raise e => Raise e
  end.

Declare Scope py_scope.
Delimit Scope py_scope with py.
Notation "x <- c ;; k" := (rbind c (fun x => k))
  (at level 100, c at next level, right associativity) : py_scope.
Open Scope py_scope.

(** ** Python numbers *)

Module Py.

(** A JSON scalar as the script meets it: [null], an integer or a float. *)
Inductive value : Type :=
| None_
| Int (z : Z)
| Float (f : float).

Definition is_None (v : value) : bool :=
  match v with None_ => true | _ => false end.

(** [float(z)]: the nearest binary64 (ties to even); CPython raises
    [OverflowError] when the integer is beyond the largest finite float. *)
Definition float_of_int (z : Z) : result float :=
  let f := SF2Prim (binary_normalize prec emax z 0 false) in
  if is_infinity f then Raise OverflowError else Ok f.

Definition to_float (v : value) : result float :=
  match v with
  | None_ => Raise TypeError
  | Int z => float_of_int z
  | Float f => Ok f
  end.

(** Binary arithmetic: two ints stay exact, anything with a float is done in
    binary64, [None] is a [TypeError]. *)
Definition arith (fz : Z -> Z -> Z) (ff : float -> float -> float)
           (a b : value) : result value :=
  match a, b with
  | Int x, Int y => Ok (Int (fz x y))
  | None_, _ | _, None_ => Raise TypeError
  | _, _ => x <- to_float a ;; y <- to_float b ;; Ok (Float (ff x y))
  end.

Definition add := arith Z.add PrimFloat.add.
Definition sub := arith Z.sub PrimFloat.sub.
Definition mul := arith Z.mul PrimFloat.mul.

(** Unary minus. *)
Definition neg (a : value) : result value :=
  match a with
  | None_ => Raise TypeError
  | Int x => Ok (Int (- x))
  | Float x => Ok (Float (- x))
  end.

(** [a < b].  CPython compares an int with a float exactly; converting the
    int first gives the same answer whenever the int is below 2^53 in
    magnitude, as is every int this script compares with a float. *)
Definition lt (a b : value) : result bool :=
  match a, b with
  | Int x, Int y => Ok (x <? y)
  | None_, _ | _, None_ => Raise TypeError
  | _, _ => x <- to_float a ;; y <- to_float b ;; Ok (x <? y)%float
  end.

(** [a <= b], with the same conversions. *)
Definition le (a b : value) : result bool :=
  match a, b with
  | Int x, Int y => Ok (x <=? y)
  | None_, _ | _, None_ => Raise TypeError
  | _, _ => x <- to_float a ;; y <- to_float b ;; Ok (x <=? y)%float
  end.

(** The builtins [min(a, b)] and [max(a, b)]: the first argument is kept
    unless the second is strictly smaller (larger). *)
Definition min2 (a b : value) : result value :=
  c <- lt b a ;; Ok (if c then b else a).
Definition max2 (a b : value) : result value :=
  c <- lt a b ;; Ok (if c then b else a).

(** [min(list)] and [max(list)] on a list of floats: [ValueError] on the
    empty list, otherwise a left-to-right scan keeping the first extremum. *)
Definition min_list (l : list float) : result float :=
  match l with
  | [] => Raise ValueError
  | x :: rest => Ok (fold_left (fun m y => if (y <? m)%float then y else m) rest x)
  end.
Definition max_list (l : list float) : result float :=
  match l with
  | [] => Raise ValueError
  | x :: rest => Ok (fold_left (fun m y => if (m <? y)%float then y else m) rest x)
  end.

(** [int(x)] of a float: truncation toward zero ([ValueError] on NaN,
    [OverflowError] on an infinity). *)
Definition int_of_float (f : float) : result Z :=
  match Prim2SF f with
  | S754_nan => Raise ValueError
  | S754_infinity _ => Raise OverflowError
  | S754_zero _ => Ok 0
  | S754_finite s m e =>
      let a := if 0 <=? e then Z.pos m * 2 ^ e else Z.pos m / 2 ^ (- e) in
      Ok (if s then - a else a)
  end.

(** [a / b] on two ints: the correctly rounded quotient.  For operands below
    2^53 in magnitude (all the script divides) CPython converts both exactly
    and divides the doubles. *)
Definition int_truediv (a b : Z) : result float :=
  if b =? 0 then Raise ZeroDivisionError
  else x <- float_of_int a ;; y <- float_of_int b ;; Ok (x / y)%float.

(** [a / b] in general: always a float, [ZeroDivisionError] on a zero
    divisor. *)
Definition truediv (a b : value) : result value :=
  match a, b with
  | Int x, Int y => q <- int_truediv x y ;; Ok (Float q)
  | None_, _ | _, None_ => Raise TypeError
  | _, _ =>
      x <- to_float a ;; y <- to_float b ;;
      if (y =? 0)%float then Raise ZeroDivisionError else Ok (Float (x / y))
  end.

End Py.

(** ** datetime and timedelta *)

(** A [datetime] in the local zone.  All the datetimes of the script carry
    the same zone, so comparison and arithmetic are on the wall-clock fields;
    the date is kept as its proleptic Gregorian ordinal ([date.toordinal]). *)
Record datetime : Type := mkdatetime {
  ordinal : Z;
  hour : Z;
  minute : Z;
  second : Z;
  microsecond : Z
}.

(** A [timedelta], as its total number of microseconds. *)
Definition timedelta_t : Type := Z.

Definition us_per_second : Z := 1000000.
Definition us_per_minute : Z := 60 * us_per_second.
Definition us_per_hour : Z := 60 * us_per_minute.
Definition us_per_day : Z := 24 * us_per_hour.

Definition timedelta (days hours minutes : Z) : timedelta_t :=
  days * us_per_day + hours * us_per_hour + minutes * us_per_minute.

Definition valid_datetime (d : datetime) : Prop :=
  0 <= hour d < 24 /\ 0 <= minute d < 60 /\ 0 <= second d < 60 /\
  0 <= microsecond d < 1000000.

Definition to_us (d : datetime) : Z :=
  ordinal d * us_per_day + hour d * us_per_hour + minute d * us_per_minute
  + second d * us_per_second + microsecond d.

Definition of_us (n : Z) : datetime :=
  {| ordinal := n / us_per_day;
     hour := (n mod us_per_day) / us_per_hour;
     minute := (n mod us_per_hour) / us_per_minute;
     second := (n mod us_per_minute) / us_per_second;
     microsecond := n mod us_per_second |}.

(** [d + delta], [a - b] and the comparisons of two datetimes. *)
Definition dt_add (d : datetime) (delta : timedelta_t) : datetime :=
  of_us (to_us d + delta).
Definition dt_sub (a b : datetime) : timedelta_t := to_us a - to_us b.
Definition dt_ltb (a b : datetime) : bool := to_us a <? to_us b.
Definition dt_geb (a b : datetime) : bool := to_us b <=? to_us a.

(** [d.replace(hour=.., minute=.., second=.., microsecond=..)]: a field left
    out keeps its value, a field out of range is a [ValueError]. *)
Definition replace (d : datetime) (h m s us : option Z) : result datetime :=
  let pick (o : option Z) (old : Z) := match o with Some v => v | None => old end in
  let h' := pick h (hour d) in
  let m' := pick m (minute d) in
  let s' := pick s (second d) in
  let us' := pick us (microsecond d) in
  if (0 <=? h') && (h' <? 24) && (0 <=? m') && (m' <? 60)
     && (0 <=? s') && (s' <? 60) && (0 <=? us') && (us' <? 1000000)
  then Ok {| ordinal := ordinal d; hour := h'; minute := m'; second := s';
             microsecond := us' |}
  else Raise ValueError.

(** ** Calendar arithmetic and the text formats of the standard library *)

Module Calendar.

Definition is_leap (year : Z) : bool :=
  (year mod 4 =? 0) && (negb (year mod 100 =? 0) || (year mod 400 =? 0)).

Definition days_before_year (year : Z) : Z :=
  let y := year - 1 in y * 365 + y / 4 - y / 100 + y / 400.

Definition days_in_month (year month : Z) : Z :=
  if month =? 2 then (if is_leap year then 29 else 28)
  else if (month =? 4) || (month =? 6) || (month =? 9) || (month =? 11) then 30
  else 31.

Definition days_before_month (year month : Z) : Z :=
  nth (Z.to_nat month) [0; 0; 31; 59; 90; 120; 151; 181; 212; 243; 273; 304; 334] 0
  + (if (2 <? month) && is_leap year then 1 else 0).

(** [date(year, month, day).toordinal()]. *)
Definition ymd2ord (year month day : Z) : Z :=
  days_before_year year + days_before_month year month + day.

(** [date.fromordinal(n)] as (year, month, day), by the 400-, 100-, 4- and
    1-year cycles. *)
Definition ord2ymd (n0 : Z) : Z * Z * Z :=
  let n := n0 - 1 in
  let n400 := n / 146097 in
  let n := n mod 146097 in
  let n100 := n / 36524 in
  let n := n mod 36524 in
  let n4 := n / 1461 in
  let n := n mod 1461 in
  let n1 := n / 365 in
  let n := n mod 365 in
  let year := n400 * 400 + 1 + n100 * 100 + n4 * 4 + n1 in
  if (n1 =? 4) || (n100 =? 4) then (year - 1, 12, 31)
  else
    let leapyear := (n1 =? 3) && (negb (n4 =? 24) || (n100 =? 3)) in
    let month := (n + 50) / 32 in
    let preceding :=
      days_before_month 1 month + (if (2 <? month) && leapyear then 1 else 0) in
    if n <? preceding then
      let before :=
        preceding - (days_in_month 1 (month - 1)
                     + (if (month - 1 =? 2) && leapyear then 1 else 0)) in
      (year, month - 1, n - before + 1)
    else (year, month, n - preceding + 1).

(** Day and month names of the C locale; [weekday()] counts from Monday. *)
Definition day_name (ord : Z) : string :=
  nth (Z.to_nat ((ord + 6) mod 7))
      ["Monday"; "Tuesday"; "Wednesday"; "Thursday"; "Friday"; "Saturday";
       "Sunday"]%string ""%string.

Definition month_name (month : Z) : string :=
  nth (Z.to_nat (month - 1))
      ["January"; "February"; "March"; "April"; "May"; "June"; "July";
       "August"; "September"; "October"; "November"; "December"]%string
      ""%string.

End Calendar.

Fixpoint mapM {A B : Type} (f : A -> result B) (l : list A) : result (list B) :=
  match l with
  | [] => Ok []
  | a :: rest => b <- f a ;; bs <- mapM f rest ;; Ok (b :: bs)
  end.

Definition digit (c : ascii) : option Z :=
  let n := Z.of_N (N_of_ascii c) in
  if (48 <=? n) && (n <=? 57) then Some (n - 48) else None.

Definition digit_char (n : Z) : ascii := ascii_of_N (Z.to_N (48 + n)).

Definition two_digits (n : Z) : string :=
  String (digit_char (n / 10)) (String (digit_char (n mod 10)) EmptyString).

Definition four_digits (n : Z) : string :=
  (two_digits (n / 100) ++ two_digits (n mod 100))%string.

(** The expansion of one [strftime] directive in the C locale, for the
    directives this script uses; any other letter is copied with its percent
    sign. *)
Definition directive (d : datetime) (c : ascii) : string :=
  let '(year, month, day) := Calendar.ord2ymd (ordinal d) in
  let h12 := if hour d mod 12 =? 0 then 12 else hour d mod 12 in
  if Ascii.eqb c "Y" then four_digits year
  else if Ascii.eqb c "m" then two_digits month
  else if Ascii.eqb c "d" then two_digits day
  else if Ascii.eqb c "H" then two_digits (hour d)
  else if Ascii.eqb c "M" then two_digits (minute d)
  else if Ascii.eqb c "S" then two_digits (second d)
  else if Ascii.eqb c "I" then two_digits h12
  else if Ascii.eqb c "p" then (if hour d <? 12 then "AM" else "PM")
  else if Ascii.eqb c "A" then Calendar.day_name (ordinal d)
  else if Ascii.eqb c "a" then substring 0 3 (Calendar.day_name (ordinal d))
  else if Ascii.eqb c "b" then substring 0 3 (Calendar.month_name month)
  else if Ascii.eqb c "%" then "%"
  else String "%" (String c EmptyString).

(** [d.strftime(fmt)]: ordinary characters are copied, a percent sign
    expands the directive that follows it. *)
Fixpoint strftime (d : datetime) (fmt : string) : string :=
  match fmt with
  | EmptyString => EmptyString
  | String c rest =>
      if Ascii.eqb c "%" then
        match rest with
        | EmptyString => "%"
        | String k rest' => (directive d k ++ strftime d rest')%string
        end
      else String c (strftime d rest)
  end.

(** The groups of [isoPat]: the digits of the timestamp and of the zone. *)
Record iso_groups : Type := {
  g_year : Z; g_month : Z; g_day : Z;
  g_hour : Z; g_minute : Z; g_second : Z;
  g_west : bool; g_tzhour : Z; g_tzminute : Z
}.

Definition number2 (a b : ascii) : option Z :=
  match digit a, digit b with
  | Some x, Some y => Some (10 * x + y)
  | _, _ => None
  end.

(** [isoPat.match(s)]: anchored at the start only, so whatever follows the
    zone (the [/P...] duration or anything else) is accepted. *)
Definition isoPat (s : string) : option iso_groups :=
  match list_ascii_of_string s with
  | y1 :: y2 :: y3 :: y4 :: c1 :: m1 :: m2 :: c2 :: d1 :: d2 :: c3
    :: h1 :: h2 :: c4 :: n1 :: n2 :: c5 :: s1 :: s2
    :: sg :: z1 :: z2 :: c6 :: z3 :: z4 :: _ =>
      if Ascii.eqb c1 "-" && Ascii.eqb c2 "-" && Ascii.eqb c3 "T"
         && Ascii.eqb c4 ":" && Ascii.eqb c5 ":" && Ascii.eqb c6 ":"
         && (Ascii.eqb sg "+" || Ascii.eqb sg "-")
      then
        match number2 y1 y2, number2 y3 y4, number2 m1 m2, number2 d1 d2 with
        | Some ya, Some yb, Some mo, Some da =>
            match number2 h1 h2, number2 n1 n2, number2 s1 s2,
                  number2 z1 z2, number2 z3 z4 with
            | Some ho, Some mi, Some se, Some zh, Some zm =>
                Some {| g_year := 100 * ya + yb; g_month := mo; g_day := da;
                        g_hour := ho; g_minute := mi; g_second := se;
                        g_west := Ascii.eqb sg "-"; g_tzhour := zh;
                        g_tzminute := zm |}
            | _, _, _, _, _ => None
            end
        | _, _, _, _ => None
        end
      else None
  | _ => None
  end.

(** [datetime.strptime(.., '%Y-%m-%dT%X%z')] on the matched text: the fields
    are range-checked ([ValueError] otherwise); the value is the wall-clock
    reading together with its UTC offset. *)
Definition strptime (g : iso_groups) : result (datetime * timedelta_t) :=
  if (1 <=? g_year g) && (1 <=? g_month g) && (g_month g <=? 12)
     && (1 <=? g_day g) && (g_day g <=? Calendar.days_in_month (g_year g) (g_month g))
     && (g_hour g <=? 23) && (g_minute g <=? 59) && (g_second g <=? 59)
     && (g_tzhour g <=? 23) && (g_tzminute g <=? 59)
  then
    let off := timedelta 0 (g_tzhour g) (g_tzminute g) in
    Ok ({| ordinal := Calendar.ymd2ord (g_year g) (g_month g) (g_day g);
           hour := g_hour g; minute := g_minute g; second := g_second g;
           microsecond := 0 |},
        if g_west g then - off else off)
  else Raise ValueError.

(** A time zone: the UTC offset (in microseconds) in force at a UTC instant. *)
Definition tzinfo : Type := Z -> timedelta_t.

(** [aware.astimezone(tz)]: the same instant read on the wall clock of [tz]. *)
Definition astimezone (tz : tzinfo) (aware : datetime * timedelta_t) : datetime :=
  let utc := to_us (fst aware) - snd aware in
  of_us (utc + tz utc).

(** ** Command line *)

(** The white space that [int(str)] strips, within ASCII. *)
Definition is_space (c : ascii) : bool :=
  let n := Z.of_N (N_of_ascii c) in
  ((9 <=? n) && (n <=? 13)) || ((28 <=? n) && (n <=? 32)).

Fixpoint lstrip (l : list ascii) : list ascii :=
  match l with
  | c :: rest => if is_space c then lstrip rest else l
  | [] => []
  end.

Definition strip (l : list ascii) : list ascii := rev (lstrip (rev (lstrip l))).

(** Decimal digits, a single underscore allowed between two digits. *)
Fixpoint digits_value (acc : Z) (after_digit : bool) (l : list ascii) : option Z :=
  match l with
  | [] => if after_digit then Some acc else None
  | c :: rest =>
      match digit c with
      | Some d => digits_value (10 * acc + d) true rest
      | None =>
          if Ascii.eqb c "_" && after_digit then digits_value acc false rest
          else None
      end
  end.

(** The builtin [int(string)] in base ten, on ASCII text: surrounding white
    space, an optional sign, digits; anything else is a [ValueError].  (The
    interpreter's cap on the number of digits and the non-ASCII digits and
    spaces of Unicode are outside this model.) *)
Definition py_int (s : string) : result Z :=
  let unsigned (l : list ascii) :=
    match digits_value 0 false l with
    | Some v => Ok v
    | None => Raise ValueError
    end in
  match strip (list_ascii_of_string s) with
  | [] => Raise ValueError
  | c :: rest =>
      if Ascii.eqb c "+" then unsigned rest
      else if Ascii.eqb c "-" then v <- unsigned rest ;; Ok (- v)
      else unsigned (c :: rest)
  end.

Definition type_hours (string : string) : result Z :=
  val <- py_int string ;;
  if (val <? 0) || (val >? 23)
  then Raise (Exception_ "Value must be an integer between 0 and 23")
  else Ok val.

(** The options as typed on the command line, and as [parse_args] returns
    them. *)
Record command_line : Type := {
  given_test : bool;
  given_no_epaper : bool;
  given_current_time : option string;
  given_debug_output : bool
}.

Record arguments : Type := {
  test : bool;
  no_epaper : bool;
  current_time : option Z;
  debug_output : bool
}.

(** [parser.parse_args()]: argparse turns a [ValueError] of the [type]
    function into a usage error (exit status 2) and lets any other exception
    through; without [--current-time] the default [None] is not converted. *)
Definition parse_args (given : command_line) : result arguments :=
  cur <- match given_current_time given with
         | None => Ok None
         | Some text =>
             match type_hours text with
             | Ok v => Ok (Some v)
             | Raise ValueError => Raise (SystemExit 2)
             | Raise TypeError => Raise (SystemExit 2)
             | Raise e => Raise e
             end
         end ;;
  Ok {| test := given_test given; no_epaper := given_no_epaper given;
        current_time := cur; debug_output := given_debug_output given |}.

(** ** Forecast documents, grid points and the chart *)

(** The fetched JSON document: [updateTime] and, for each covariate, the
    entries of its ['values'] list. *)
Module Forecast.
Record entry : Type := { validTime : string; value : Py.value }.
Record t : Type := {
  updateTime : string;
  probabilityOfPrecipitation : list entry;
  temperature : list entry;
  relativeHumidity : list entry
}.
End Forecast.

(** An element of the lists [extractTimeValues] returns. *)
Record sample : Type := { value : Py.value; validTime : datetime }.

(** An element of [halfHourValues]. *)
Record gridpoint : Type := {
  time : datetime;
  probabilityOfPrecipitation : Py.value;
  temperature : float;
  relativeHumidity : Py.value
}.

(** What [drawGraph] hands to the drawing calls: the temperature scale, the
    band of the current-time marker, the marks and the three polylines (each
    point with its x, its y and the value for the checkpoint label).  Text
    placement, which depends on font metrics, is left out. *)
Record chart : Type := {
  tempExtents_of : Py.value * Py.value;
  marker_band : Py.value * Py.value;
  quarter_marks : list float;
  hour_marks : list float;
  precip_line : list (float * Py.value * Py.value);
  temp_line : list (float * Py.value * Py.value);
  humid_line : list (float * Py.value * Py.value)
}.

(** ** The world of a run *)

Inductive message : Type :=
| LoadingCached (file : string)
| CacheTooOld (updated : datetime)
| Retrieving (file : string)
| NoDataFor (precipitation temperature humidity : Py.value)
| DrawingToEpaper
| DrawingComplete.

Record world : Type := {
  files : string -> option Forecast.t;   (* JSON files on disk, by path *)
  noaa : result Forecast.t;              (* what the forecast service answers *)
  fetches : nat;                         (* calls of [get_forecasts] so far *)
  stdout : list message;                 (* lines printed, oldest first *)
  test_png : option chart;               (* the image saved as test.png *)
  epd_works : bool;                      (* does the display take a transfer *)
  epd_shown : option chart;              (* the image on the display *)
  epd_exits : nat                        (* calls of [module_exit] *)
}.

Definition io (A : Type) : Type := world -> result A * world.

Definition ioret {A : Type} (a : A) : io A := fun w => (Ok a, w).

Definition iobind {A B : Type} (c : io A) (k : A -> io B) : io B :=
  fun w =>
    match c w with
    | (Ok a, w') => k a w'
    | (Raise e, w') => (Raise e, w')
    end.

Definition lift {A : Type} (r : result A) : io A := fun w => (r, w).

Notation "x <~ c ;; k" := (iobind c (fun x => k))
  (at level 100, c at next level, right associativity) : py_scope.
Notation "c ;;; k" := (iobind c (fun _ => k))
  (at level 100, k at level 200, right associativity) : py_scope.

Definition print (m : message) : io unit :=
  fun w => (Ok tt,
            {| files := files w; noaa := noaa w; fetches := fetches w;
               stdout := stdout w ++ [m]; test_png := test_png w;
               epd_works := epd_works w; epd_shown := epd_shown w;
               epd_exits := epd_exits w |}).

Definition write_file (path : string) (doc : Forecast.t) : io unit :=
  fun w => (Ok tt,
            {| files := fun p => if String.eqb p path then Some doc else files w p;
               noaa := noaa w; fetches := fetches w; stdout := stdout w;
               test_png := test_png w; epd_works := epd_works w;
               epd_shown := epd_shown w; epd_exits := epd_exits w |}).

(** [NOAA().get_forecasts(...)]: one request to the service. *)
Definition get_forecasts : io Forecast.t :=
  fun w => (noaa w,
            {| files := files w; noaa := noaa w; fetches := S (fetches w);
               stdout := stdout w; test_png := test_png w;
               epd_works := epd_works w; epd_shown := epd_shown w;
               epd_exits := epd_exits w |}).

Definition save_png (img : chart) : io unit :=
  fun w => (Ok tt,
            {| files := files w; noaa := noaa w; fetches := fetches w;
               stdout := stdout w; test_png := Some img;
               epd_works := epd_works w; epd_shown := epd_shown w;
               epd_exits := epd_exits w |}).

(** The [try: ... except: module_exit()] block around the display driver. *)
Definition epd_display (img : chart) : io unit :=
  fun w => (Ok tt,
            if epd_works w
            then {| files := files w; noaa := noaa w; fetches := fetches w;
                    stdout := stdout w; test_png := test_png w;
                    epd_works := epd_works w; epd_shown := Some img;
                    epd_exits := epd_exits w |}
            else {| files := files w; noaa := noaa w; fetches := fetches w;
                    stdout := stdout w; test_png := test_png w;
                    epd_works := epd_works w; epd_shown := epd_shown w;
                    epd_exits := S (epd_exits w) |}).

Definition get_file (path : string) : io (option Forecast.t) :=
  fun w => (Ok (files w path), w).

Definition inspect {A : Type} (a : A) : {b : A | a = b} := exist _ a eq_refl.

(** ** The script *)

Section Script.

(** The module-level state of a run: the local zone, the parsed options,
    the clock as read at start-up ([localNow]) and as read again by the
    staleness test of the cache. *)
Variable localTz : tzinfo.
Variable args : arguments.
Variable localNow : datetime.
Variable laterNow : datetime.

Definition printd (m : message) : io unit :=
  if debug_output args then print m else ioret tt.

Definition measureStart : result datetime :=
  q <- Py.int_truediv (hour localNow) 12 ;;
  h <- Py.int_of_float q ;;
  replace localNow (Some (h * 12)) (Some 0) (Some 0) (Some 0).

Definition weather_cachefile : string :=
  strftime localNow "weather_cache.json".

Definition oneDayHence (measureStart : datetime) : datetime :=
  dt_add measureStart (timedelta 1 1 0).

Definition getLinePoints (values : list (datetime * Py.value))
           (timeToXFunc : datetime -> result float)
           (yScaleFactor minValue yAdd : option Py.value)
  : result (list (float * Py.value * Py.value)) :=
  let yScaleFactor := match yScaleFactor with Some v => v | None => Py.Int 1 end in
  let yAdd := match yAdd with Some v => v | None => Py.Int 0 end in
  let minValue := match minValue with Some v => v | None => Py.Int 0 end in
  mapM (fun value =>
          x <- timeToXFunc (fst value) ;;
          d <- Py.sub (snd value) minValue ;;
          p <- Py.mul d yScaleFactor ;;
          y <- Py.add yAdd p ;;
          Ok (x, y, snd value))
       values.

Definition extractValues (timeAndValueDict : list (datetime * Py.value))
  : list Py.value :=
  map snd timeAndValueDict.

(** The fixed geometry of [drawGraph]. *)
Definition imageArea : Z * Z := (640, 400).
Definition exteriorImagePadding : Z * Z := (38, 20).
Definition graphPadding : Z * Z := (5, 5).
Definition currentTimeWidth : Z := 20.
Definition graphArea : (Z * Z) * (Z * Z) :=
  ((fst exteriorImagePadding, fst imageArea - fst exteriorImagePadding),
   (120, snd imageArea - snd exteriorImagePadding)).
Definition graphSize : Z * Z :=
  (snd (fst graphArea) - fst (fst graphArea) - fst graphPadding * 2,
   snd (snd graphArea) - fst (snd graphArea) - snd graphPadding * 2).

(** [graphArea[0][0]+graphPadding[0]+((inTime - roundBegin)/timeRange)*graphSize[0]]. *)
Definition timeToGraphX (roundBegin : datetime) (timeRange : timedelta_t)
           (inTime : datetime) : result float :=
  frac <- Py.int_truediv (dt_sub inTime roundBegin) timeRange ;;
  w <- Py.float_of_int (fst graphSize) ;;
  x0 <- Py.float_of_int (fst (fst graphArea) + fst graphPadding) ;;
  Ok (x0 + frac * w)%float.

(** [(min(50, min(temps)-10), max(60, max(temps)+10))]. *)
Definition tempExtents (temperatures : list float) : result (Py.value * Py.value) :=
  lowest <- Py.min_list temperatures ;;
  lo <- Py.sub (Py.Float lowest) (Py.Int 10) ;;
  lo <- Py.min2 (Py.Int 50) lo ;;
  highest <- Py.max_list temperatures ;;
  hi <- Py.add (Py.Float highest) (Py.Int 10) ;;
  hi <- Py.max2 (Py.Int 60) hi ;;
  Ok (lo, hi).

(** The [curTime] the marker is drawn for: with [--current-time] the
    parameter is overwritten by [beginTime.replace(hour=beginTime.hour+N)]. *)
Definition markerTime (beginTime curTime : datetime) : result datetime :=
  match current_time args with
  | Some n => replace beginTime (Some (hour beginTime + n)) None None None
  | None => Ok curTime
  end.

(** [currTimeMark] and [minXes]: the band of the current-time marker. *)
Definition currTimeMark (roundBegin : datetime) (timeRange : timedelta_t)
           (curTime : datetime) : result float :=
  timeToGraphX roundBegin timeRange curTime.

Definition minXes (currTimeMark : float) : result (Py.value * Py.value) :=
  half <- Py.truediv (Py.Int currentTimeWidth) (Py.Float 2) ;;
  l <- Py.sub (Py.Float currTimeMark) half ;;
  l <- Py.max2 (Py.Int (fst (fst graphArea) + fst graphPadding)) l ;;
  r <- Py.add (Py.Float currTimeMark) half ;;
  r <- Py.min2 (Py.Int (snd (fst graphArea) - fst graphPadding)) r ;;
  Ok (l, r).

Definition drawGraph (date curTime : datetime) (whenUpdated : option datetime)
           (graphData : list gridpoint) : result chart :=
  beginTime <- match graphData with
               | p :: _ => Ok (time p)
               | [] => Raise IndexError
               end ;;
  let endTime := time (last graphData {| time := beginTime;
                                         probabilityOfPrecipitation := Py.None_;
                                         temperature := 0%float;
                                         relativeHumidity := Py.None_ |}) in
  roundBegin <- replace beginTime None
                        (Some (if minute beginTime <? 30 then 0 else 30))
                        (Some 0) (Some 0) ;;
  roundEnd <- replace endTime
                      (Some (if 30 <=? minute endTime then hour endTime + 1
                             else hour endTime))
                      (Some (if minute endTime <? 30 then 30 else 0))
                      (Some 0) (Some 0) ;;
  let timeRange := dt_sub roundEnd roundBegin in
  hours <- Py.int_truediv timeRange (timedelta 0 1 0) ;;
  hoursDisplayed <- Py.int_of_float hours ;;
  q3 <- Py.int_truediv (hour roundBegin) 3 ;;
  h3 <- Py.int_of_float q3 ;;
  baseDate <- replace date (Some (h3 * 3)) (Some 0) (Some 0) (Some 0) ;;
  curTime <- markerTime beginTime curTime ;;
  let temperatures := map (fun val => (time val, Py.Float (temperature val))) graphData in
  let chancePrecips := map (fun val => (time val, probabilityOfPrecipitation val)) graphData in
  let humidities := map (fun val => (time val, relativeHumidity val)) graphData in
  extents <- tempExtents (map temperature graphData) ;;
  _ <- Py.truediv (Py.Int (fst graphSize)) (Py.Int (Z.of_nat (List.length graphData))) ;;
  _ <- Py.truediv (Py.Int (fst graphSize)) (Py.Int hoursDisplayed) ;;
  span <- Py.sub (snd extents) (fst extents) ;;
  down <- Py.neg span ;;
  degreeScale <- Py.truediv (Py.Int (snd graphSize)) down ;;
  percentScale <- Py.truediv (Py.Int (snd graphSize)) (Py.Int (-100)) ;;
  _ <- match whenUpdated with
       | Some _ => Ok tt
       | None => Raise AttributeError
       end ;;
  mark <- currTimeMark roundBegin timeRange curTime ;;
  band <- minXes mark ;;
  quarterMarks <- mapM (fun i => timeToGraphX roundBegin timeRange
                                   (dt_add baseDate (timedelta 0 6 0 * i)))
                       [0; 1; 2; 3; 4] ;;
  hourMarks <- mapM (fun i =>
                       tim <- replace roundBegin
                                      (Some (if 0 <? minute roundBegin
                                             then hour roundBegin + 1
                                             else hour roundBegin))
                                      (Some 0) None None ;;
                       timeToGraphX roundBegin timeRange
                                    (dt_add tim (timedelta 0 1 0 * i)))
                    (map Z.of_nat (seq 0 (Z.to_nat hoursDisplayed))) ;;
  let yAdd := Py.Int (snd (snd graphArea) - snd graphPadding) in
  precipPoints <- getLinePoints chancePrecips (timeToGraphX roundBegin timeRange)
                                (Some percentScale) None (Some yAdd) ;;
  tempPoints <- getLinePoints temperatures (timeToGraphX roundBegin timeRange)
                              (Some degreeScale) (Some (fst extents)) (Some yAdd) ;;
  humidPoints <- getLinePoints humidities (timeToGraphX roundBegin timeRange)
                               (Some percentScale) None (Some yAdd) ;;
  Ok {| tempExtents_of := extents; marker_band := band;
        quarter_marks := quarterMarks; hour_marks := hourMarks;
        precip_line := precipPoints; temp_line := tempPoints;
        humid_line := humidPoints |}.

Definition extractTimeFromDuration (inStr : string) : result (option datetime) :=
  match isoPat inStr with
  | None => Ok None
  | Some groups =>
      aware <- strptime groups ;;
      Ok (Some (astimezone localTz aware))
  end.

(** [oneDayHence >= time]; comparing with [None] is a [TypeError]. *)
Definition within24Hours (oneDayHence : datetime) (time : option datetime)
  : result bool :=
  match time with
  | Some t => Ok (dt_geb oneDayHence t)
  | None => Raise TypeError
  end.

(** The comprehension of [extractTimeValues]: the condition is evaluated
    first, the element (which parses the text again) only when it holds. *)
Fixpoint extractTimeValues (oneDayHence : datetime) (values : list Forecast.entry)
  : result (list sample) :=
  match values with
  | [] => Ok []
  | value :: rest =>
      t <- extractTimeFromDuration (Forecast.validTime value) ;;
      keep <- within24Hours oneDayHence t ;;
      if keep then
        t' <- extractTimeFromDuration (Forecast.validTime value) ;;
        match t' with
        | Some vt =>
            kept <- extractTimeValues oneDayHence rest ;;
            Ok ({| value := Forecast.value value; validTime := vt |} :: kept)
        | None => Raise TypeError
        end
      else extractTimeValues oneDayHence rest
  end.

Definition convertCToF (cel : Py.value) : result float :=
  c <- Py.to_float cel ;;
  Ok (1.8 * c + 32)%float.

Definition retrieve_weather : io Forecast.t := get_forecasts.

(** Lines 272-291: load the cache, test its age, fetch and rewrite it when
    it is missing or too old. *)
Definition load_weather : io Forecast.t :=
  cached <~ get_file weather_cachefile ;;
  state <~ match cached with
           | Some result =>
               printd (LoadingCached weather_cachefile) ;;;
               updateTime <~ lift (extractTimeFromDuration (Forecast.updateTime result)) ;;
               match updateTime with
               | None => lift (Raise TypeError)
               | Some updateTime =>
                   if dt_ltb (dt_add updateTime (timedelta 0 24 0)) laterNow
                   then printd (CacheTooOld updateTime) ;;; ioret (Some result, true)
                   else ioret (Some result, false)
               end
           | None => ioret (None, false)
           end ;;
  match state with
  | (Some result, false) => ioret result
  | _ =>
      printd (Retrieving weather_cachefile) ;;;
      result <~ retrieve_weather ;;
      write_file weather_cachefile result ;;;
      ioret result
  end.

(** One pass of the [for idx in range(...)] loop for one covariate. *)
Definition adopt (curTime : datetime) (series : list sample) (idx : nat)
           (cur : Py.value) : Py.value :=
  match nth_error series idx with
  | Some s =>
      if Py.is_None cur || dt_geb curTime (validTime s) then value s else cur
  | None => cur
  end.

(** The values of [curPrecip], [curTemp] and [curHumid] after the inner
    loop. *)
Definition resolve (curTime : datetime) (precip temp humid : list sample)
  : Py.value * Py.value * Py.value :=
  fold_left
    (fun cur idx =>
       let '(curPrecip, curTemp, curHumid) := cur in
       (adopt curTime precip idx curPrecip,
        adopt curTime temp idx curTemp,
        adopt curTime humid idx curHumid))
    (seq 0 (Nat.max (List.length precip) (Nat.max (List.length temp) (List.length humid))))
    (Py.None_, Py.None_, Py.None_).

(** The body of the [while] loop: the grid point of [curTime]. *)
Definition gridpoint_at (precip temp humid : list sample) (curTime : datetime)
  : io gridpoint :=
  let '(curPrecip, curTemp, curHumid) := resolve curTime precip temp humid in
  (if Py.is_None curPrecip || Py.is_None curTemp || Py.is_None curHumid
   then printd (NoDataFor curPrecip curTemp curHumid)
   else ioret tt) ;;;
  fahrenheit <~ lift (convertCToF curTemp) ;;
  ioret {| time := curTime; probabilityOfPrecipitation := curPrecip;
           temperature := fahrenheit; relativeHumidity := curHumid |}.

(** The number of half-hour steps from [curTime] that stay before
    [oneDayHence]: the variant of the [while] loop. *)
Definition steps_left (oneDayHence curTime : datetime) : nat :=
  Z.to_nat ((to_us oneDayHence - to_us curTime + timedelta 0 0 30 - 1)
            / timedelta 0 0 30).

(** [while curTime < oneDayHence: ...; curTime += timedelta(minutes=30)]. *)
Equations? halfHourValues (oneDayHence : datetime) (precip temp humid : list sample)
           (curTime : datetime) (acc : list gridpoint) (w : world)
  : result (list gridpoint) * world
  by wf (steps_left oneDayHence curTime) lt :=
  halfHourValues oneDayHence precip temp humid curTime acc w
    with (inspect (dt_ltb curTime oneDayHence)) := {
    | exist _ false _ => (Ok acc, w)
    | exist _ true _ with (gridpoint_at precip temp humid curTime w) := {
        | (Ok point, w') =>
            halfHourValues oneDayHence precip temp humid
                           (dt_add curTime (timedelta 0 0 30)) (acc ++ [point]) w'
        | (Raise e, w') => (Raise e, w') } }.
Proof.
  assert (Hadd : to_us (dt_add curTime (timedelta 0 0 30))
                 = to_us curTime + timedelta 0 0 30).
  { unfold dt_add, to_us, of_us, us_per_day, us_per_hour, us_per_minute,
      us_per_second. simpl. Z.to_euclidean_division_equations. lia. }
  unfold steps_left. rewrite Hadd. unfold dt_ltb in *.
  apply Z.ltb_lt in e. unfold timedelta, us_per_minute, us_per_second.
  apply Z2Nat.inj_lt; Z.to_euclidean_division_equations; lia.
Qed.

(** The [try: ... except: module_exit()] output stage. *)
Definition output (img : chart) : io unit :=
  (if test args then save_png img else ioret tt) ;;;
  if no_epaper args then ioret tt
  else printd DrawingToEpaper ;;; epd_display img ;;; printd DrawingComplete.

(** Lines 293-334: from the forecast document to the image. *)
Definition process (measureStart : datetime) (result : Forecast.t) : io chart :=
  let oneDayHence := oneDayHence measureStart in
  updateTime <~ lift (extractTimeFromDuration (Forecast.updateTime result)) ;;
  precip <~ lift (extractTimeValues oneDayHence (Forecast.probabilityOfPrecipitation result)) ;;
  temp <~ lift (extractTimeValues oneDayHence (Forecast.temperature result)) ;;
  humid <~ lift (extractTimeValues oneDayHence (Forecast.relativeHumidity result)) ;;
  grid <~ halfHourValues oneDayHence precip temp humid measureStart [] ;;
  img <~ lift (drawGraph measureStart localNow updateTime grid) ;;
  output img ;;;
  ioret img.

(** The statements of the module after argument parsing, in order. *)
Definition script : io chart :=
  measureStart <~ lift measureStart ;;
  result <~ load_weather ;;
  process measureStart result.

End Script.

(** A run: parse the command line, then execute the script. *)
Definition run (localTz : tzinfo) (localNow laterNow : datetime)
           (given : command_line) : io chart :=
  args <~ lift (parse_args given) ;;
  script localTz args localNow laterNow.

(** ** Vocabulary of the properties *)

Inductive covariate : Type := Precipitation | Temperature | Humidity.

Definition series_of (c : covariate) (precip temp humid : list sample) : list sample :=
  match c with
  | Precipitation => precip
  | Temperature => temp
  | Humidity => humid
  end.

Definition resolved (c : covariate) (cur : Py.value * Py.value * Py.value) : Py.value :=
  match c with
  | Precipitation => fst (fst cur)
  | Temperature => snd (fst cur)
  | Humidity => snd cur
  end.

(** The inner loop as seen by one series: a left-to-right scan that adopts a
    sample when nothing is held yet or when the sample has started. *)
Definition hold_step (curTime : datetime) (cur : Py.value) (s : sample) : Py.value :=
  if Py.is_None cur || dt_geb curTime (validTime s) then value s else cur.

Definition hold_from (curTime : datetime) (series : list sample) (cur : Py.value)
  : Py.value :=
  fold_left (hold_step curTime) series cur.

(** Every sample carries a number (no JSON [null]). *)
Definition numeric (series : list sample) : Prop :=
  Forall (fun s => Py.is_None (value s) = false) series.

(** Samples in ascending order of validity start. *)
Definition ascending (series : list sample) : Prop :=
  StronglySorted (fun a b => to_us (validTime a) <= to_us (validTime b)) series.

(** [s] is the last sample of [series] that has started by [t]. *)
Definition last_started (t : datetime) (series : list sample) (s : sample) : Prop :=
  exists pre post,
    series = pre ++ s :: post /\
    to_us (validTime s) <= to_us t /\
    forall s', In s' post -> to_us t < to_us (validTime s').

(** The diagnostic of the loop body: printed when a covariate is missing and
    [--debug-output] is set. *)
Definition report_missing (args : arguments) (cur : Py.value * Py.value * Py.value)
  : io unit :=
  let '(curPrecip, curTemp, curHumid) := cur in
  if Py.is_None curPrecip || Py.is_None curTemp || Py.is_None curHumid
  then printd args (NoDataFor curPrecip curTemp curHumid)
  else ioret tt.

Definition half_hour : timedelta_t := timedelta 0 0 30.

(** The [n] grid times from [curTime] on, half an hour apart. *)
Fixpoint grid_times (curTime : datetime) (n : nat) : list datetime :=
  match n with
  | O => []
  | S k => curTime :: grid_times (dt_add curTime half_hour) k
  end.

(** What a run leaves alone outside [load_weather]: the disk, the service
    and the count of requests. *)
Definition untouched (w w' : world) : Prop :=
  files w' = files w /\ noaa w' = noaa w /\ fetches w' = fetches w.

(** [s] is what the entry [e] of the document reads as: its text parses to
    the validity start of [s], and the value is carried over. *)
Definition reads_as (localTz : tzinfo) (e : Forecast.entry) (s : sample) : Prop :=
  extractTimeFromDuration localTz (Forecast.validTime e) = Ok (Some (validTime s)) /\
  value s = Forecast.value e.

(** [x == x]: [x] is a number (not a NaN). *)
Definition number (x : float) : Prop := (x =? x)%float = true.

Definition minimum_of (m : float) (l : list float) : Prop :=
  In m l /\ forall x, In x l -> (m <=? x)%float = true.

Definition maximum_of (M : float) (l : list float) : Prop :=
  In M l /\ forall x, In x l -> (x <=? M)%float = true.

(** The usual decimal numeral of an integer. *)
Definition decimal (v : Z) : string := NilZero.string_of_int (Z.to_int v).

(** ** Example inputs *)

Definition noon_2024_03_05 : datetime := mkdatetime 738950 12 0 0 0.

Definition afternoon_2024_03_05 : datetime := mkdatetime 738950 14 20 33 123.

Definition next_afternoon : datetime := mkdatetime 738951 15 0 0 0.

Definition eastern : tzinfo := fun _ => timedelta 0 (-5) 0.

Definition quiet : arguments :=
  {| test := false; no_epaper := true; current_time := None; debug_output := false |}.

(** The scenario of the specification: [temp = [(t0, 10), (t0+2h, 15)]] at
    [t0 + 1h]. *)
Definition scenario_temp (t0 : datetime) : list sample :=
  [ {| value := Py.Int 10; validTime := t0 |};
    {| value := Py.Int 15; validTime := dt_add t0 (timedelta 0 2 0) |} ].

Definition entry (text : string) (v : Py.value) : Forecast.entry :=
  {| Forecast.validTime := text; Forecast.value := v |}.

(** A forecast updated at 12:00 Eastern on 2024-03-05. *)
Definition sample_forecast : Forecast.t :=
  {| Forecast.updateTime := "2024-03-05T17:00:00+00:00";
     Forecast.probabilityOfPrecipitation :=
       [ entry "2024-03-05T15:00:00+00:00/PT6H" (Py.Int 10);
         entry "2024-03-05T21:00:00+00:00/PT6H" (Py.Int 40) ];
     Forecast.temperature :=
       [ entry "2024-03-05T16:00:00+00:00/PT1H" (Py.Float 12.5);
         entry "2024-03-05T18:00:00+00:00/PT2H" (Py.Int 10);
         entry "2024-03-07T18:00:00+00:00/PT2H" (Py.Int 20) ];
     Forecast.relativeHumidity :=
       [ entry "2024-03-05T16:00:00+00:00/PT1H" (Py.Int 80) ] |}.

(** The same forecast a day later. *)
Definition newer_forecast : Forecast.t :=
  {| Forecast.updateTime := "2024-03-06T17:00:00+00:00";
     Forecast.probabilityOfPrecipitation :=
       Forecast.probabilityOfPrecipitation sample_forecast;
     Forecast.temperature := Forecast.temperature sample_forecast;
     Forecast.relativeHumidity := Forecast.relativeHumidity sample_forecast |}.

Definition forecast_without_temperature : Forecast.t :=
  {| Forecast.updateTime := Forecast.updateTime sample_forecast;
     Forecast.probabilityOfPrecipitation :=
       Forecast.probabilityOfPrecipitation sample_forecast;
     Forecast.temperature := [];
     Forecast.relativeHumidity := Forecast.relativeHumidity sample_forecast |}.

Definition forecast_without_precipitation : Forecast.t :=
  {| Forecast.updateTime := Forecast.updateTime sample_forecast;
     Forecast.probabilityOfPrecipitation := [];
     Forecast.temperature := Forecast.temperature sample_forecast;
     Forecast.relativeHumidity := Forecast.relativeHumidity sample_forecast |}.

Definition offline : result Forecast.t := Raise (Exception_ "offline").

(** A world with the given cache file content and service answer, and
    nothing printed, fetched or drawn yet. *)
Definition world_with (cache : option Forecast.t) (service : result Forecast.t)
  : world :=
  {| files := fun p => if (p =? "weather_cache.json")%string then cache else None;
     noaa := service; fetches := 0; stdout := []; test_png := None;
     epd_works := true; epd_shown := None; epd_exits := 0 |}.

Definition test_run (debug : bool) (spoof : option string) : command_line :=
  {| given_test := true; given_no_epaper := true;
     given_current_time := spoof; given_debug_output := debug |}.

(** A cached document whose [updateTime] is not a timestamp. *)
Definition unreadable_forecast : Forecast.t :=
  {| Forecast.updateTime := "yesterday";
     Forecast.probabilityOfPrecipitation := [];
     Forecast.temperature := [];
     Forecast.relativeHumidity := [] |}.

(** A grid of two points, at noon and half an hour later. *)
Definition two_points : list gridpoint :=
  [ {| time := noon_2024_03_05; probabilityOfPrecipitation := Py.Int 10;
       temperature := 54.5%float; relativeHumidity := Py.Float 80.5 |};
    {| time := dt_add noon_2024_03_05 (timedelta 0 0 30);
       probabilityOfPrecipitation := Py.Int 40;
       temperature := 50%float; relativeHumidity := Py.Int 75 |} ].

Definition verbose : arguments :=
  {| test := false; no_epaper := true; current_time := None; debug_output := true |}.

(** One precipitation and one humidity sample, both started before noon. *)
Definition scenario_precip : list sample :=
  [ {| value := Py.Int 10; validTime := mkdatetime 738950 10 0 0 0 |} ].

Definition scenario_humid : list sample :=
  [ {| value := Py.Float 80.5; validTime := mkdatetime 738950 11 0 0 0 |} ].

(** The part of [process] before the output stage: from the document to the
    image. *)
Definition prepare (localTz : tzinfo) (args : arguments)
           (localNow measureStart : datetime) (result : Forecast.t) : io chart :=
  let oneDayHence := oneDayHence measureStart in
  updateTime <~ lift (extractTimeFromDuration localTz (Forecast.updateTime result)) ;;
  precip <~ lift (extractTimeValues localTz oneDayHence
                                    (Forecast.probabilityOfPrecipitation result)) ;;
  temp <~ lift (extractTimeValues localTz oneDayHence (Forecast.temperature result)) ;;
  humid <~ lift (extractTimeValues localTz oneDayHence
                                   (Forecast.relativeHumidity result)) ;;
  grid <~ halfHourValues args oneDayHence precip temp humid measureStart [] ;;
  lift (drawGraph args measureStart localNow updateTime grid).


(** ** More of [drawGraph]: labels and checkpoints *)

(** The nested function [timeLabel] of [drawGraph]; [date] is the first
    argument of the enclosing call. *)
Definition timeLabel (date inTime : datetime) : result string :=
  hLabel <- (if hour inTime =? 12 then Ok "Noon"%string
             else if (hour inTime =? 0) || (hour inTime =? 24) then Ok "Midnight"%string
             else
               h <- py_int (strftime inTime "%I") ;;
               Ok (decimal h ++ " " ++ strftime inTime "%p")%string) ;;
  if negb (ordinal date =? ordinal inTime)
  then Ok (strftime inTime "%a" ++ " " ++ hLabel)%string
  else Ok hLabel.

(** The slice [l[start::step]]: the elements at [start], [start + step], ...
    ([skip] counts down to the next element taken). *)
Fixpoint every_nth {A : Type} (step skip : nat) (l : list A) : list A :=
  match l with
  | [] => []
  | x :: rest =>
      match skip with
      | O => x :: every_nth step (step - 1) rest
      | S k => every_nth step k rest
      end
  end.

(** The points that get a value label: [precipPoints[0::7]],
    [tempPoints[2::7]] and [humidPoints[4::7]]. *)
Definition checkpoints {A : Type} (c : covariate) (points : list A) : list A :=
  match c with
  | Precipitation => every_nth 7 0 points
  | Temperature => every_nth 7 2 points
  | Humidity => every_nth 7 4 points
  end.

(** The first index of the slice of each series. *)
Definition first_checkpoint (c : covariate) : nat :=
  match c with
  | Precipitation => 0
  | Temperature => 2
  | Humidity => 4
  end.


(** * Properties *)

(** ** Arithmetic of datetimes *)

Lemma to_us_of_us (n : Z) : to_us (of_us n) = n.
Proof.
  unfold to_us, of_us, us_per_day, us_per_hour, us_per_minute, us_per_second.
  simpl. Z.to_euclidean_division_equations. lia.
Qed.

Lemma to_us_dt_add (d : datetime) (delta : timedelta_t) :
  to_us (dt_add d delta) = to_us d + delta.
Proof. unfold dt_add. apply to_us_of_us. Qed.

(** ** The resampling loop, series by series *)

Section Resampling.

Variable curTime : datetime.

Lemma adopt_beyond (series : list sample) (n start : nat) (cur : Py.value) :
  (List.length series <= start)%nat ->
  fold_left (fun c idx => adopt curTime series idx c) (seq start n) cur = cur.
Proof.
  revert start cur. induction n as [|n IH]; intros start cur Hlen; simpl.
  - reflexivity.
  - unfold adopt at 2.
    destruct (nth_error series start) eqn:E.
    + apply nth_error_None in Hlen. congruence.
    + apply IH. lia.
Qed.

Lemma adopt_scan (post pre : list sample) (extra : nat) (cur : Py.value) :
  fold_left (fun c idx => adopt curTime (pre ++ post) idx c)
            (seq (List.length pre) (List.length post + extra)) cur
  = hold_from curTime post cur.
Proof.
  revert pre cur. induction post as [|s post IH]; intros pre cur.
  - rewrite app_nil_r. simpl. apply adopt_beyond. lia.
  - simpl. unfold adopt at 2.
    rewrite nth_error_app2, Nat.sub_diag by lia. simpl.
    fold (hold_step curTime cur s).
    replace (pre ++ s :: post) with ((pre ++ [s]) ++ post)
      by (rewrite <- app_assoc; reflexivity).
    replace (S (List.length pre)) with (List.length (pre ++ [s]))
      by (rewrite length_app; simpl; lia).
    apply IH.
Qed.

Lemma fold_left_triple {A B C I : Type} (f : I -> A -> A) (g : I -> B -> B)
      (h : I -> C -> C) (l : list I) (a : A) (b : B) (c : C) :
  fold_left (fun cur idx => let '(x, y, z) := cur in (f idx x, g idx y, h idx z))
            l (a, b, c)
  = (fold_left (fun x idx => f idx x) l a,
     fold_left (fun y idx => g idx y) l b,
     fold_left (fun z idx => h idx z) l c).
Proof.
  revert a b c. induction l as [|i l IH]; intros a b c; simpl; [reflexivity|].
  apply IH.
Qed.

(** The three covariates do not interact: each is the scan of its own
    series. *)
Lemma resolve_hold (precip temp humid : list sample) (c : covariate) :
  resolved c (resolve curTime precip temp humid)
  = hold_from curTime (series_of c precip temp humid) Py.None_.
Proof.
  unfold resolve. rewrite fold_left_triple.
  set (n := Nat.max _ _).
  assert (Hscan : forall series, (List.length series <= n)%nat ->
             fold_left (fun x idx => adopt curTime series idx x) (seq 0 n) Py.None_
             = hold_from curTime series Py.None_).
  { intros series Hle.
    replace n with (List.length series + (n - List.length series))%nat by lia.
    apply (adopt_scan series []). }
  destruct c; simpl; apply Hscan; subst n; lia.
Qed.

Lemma hold_from_app (pre post : list sample) (cur : Py.value) :
  hold_from curTime (pre ++ post) cur
  = hold_from curTime post (hold_from curTime pre cur).
Proof. unfold hold_from. apply fold_left_app. Qed.

(** Once a number is held, samples that have not started leave it alone. *)
Lemma hold_from_later (post : list sample) (cur : Py.value) :
  Py.is_None cur = false ->
  (forall s', In s' post -> to_us curTime < to_us (validTime s')) ->
  hold_from curTime post cur = cur.
Proof.
  revert cur. induction post as [|s post IH]; intros cur Hcur Hlater; simpl.
  - reflexivity.
  - unfold hold_step. rewrite Hcur. simpl.
    assert (Hs : dt_geb curTime (validTime s) = false).
    { unfold dt_geb. apply Z.leb_gt. apply Hlater. now left. }
    rewrite Hs. apply IH; [assumption|].
    intros s' Hin. apply Hlater. now right.
Qed.

(** A sample that has started is adopted whatever was held. *)
Lemma hold_step_started (cur : Py.value) (s : sample) :
  to_us (validTime s) <= to_us curTime -> hold_step curTime cur s = value s.
Proof.
  intros H. unfold hold_step, dt_geb.
  apply Z.leb_le in H. rewrite H, orb_true_r. reflexivity.
Qed.

Lemma hold_last_started (series : list sample) (s : sample) :
  numeric series -> last_started curTime series s ->
  hold_from curTime series Py.None_ = value s.
Proof.
  intros Hnum (pre & post & -> & Hs & Hpost).
  rewrite hold_from_app. simpl.
  rewrite hold_step_started by assumption.
  apply hold_from_later; [|assumption].
  unfold numeric in Hnum. rewrite Forall_forall in Hnum.
  apply Hnum. apply in_or_app. right. now left.
Qed.

(** When some sample has started, there is a last one. *)
Lemma last_started_exists (series : list sample) :
  (exists s0, In s0 series /\ to_us (validTime s0) <= to_us curTime) ->
  exists s, last_started curTime series s.
Proof.
  induction series as [|a series IH]; intros (s0 & Hin & Hle).
  - contradiction.
  - destruct (existsb (fun s => dt_geb curTime (validTime s)) series) eqn:E.
    + apply existsb_exists in E. destruct E as (s1 & Hin1 & Hge1).
      destruct IH as (s & pre & post & Heq & Hs & Hpost).
      { exists s1. split; [assumption|]. now apply Z.leb_le. }
      exists s, (a :: pre), post. rewrite Heq. auto.
    + assert (Hnone : forall s', In s' series -> to_us curTime < to_us (validTime s')).
      { intros s' Hin'. apply Z.leb_gt.
        destruct (to_us (validTime s') <=? to_us curTime) eqn:E'; [|reflexivity].
        assert (existsb (fun s => dt_geb curTime (validTime s)) series = true)
          by (apply existsb_exists; exists s'; auto).
        congruence. }
      destruct Hin as [->|Hin].
      * exists s0, [], series. auto.
      * specialize (Hnone _ Hin). lia.
Qed.

(** In an ascending series the last started sample is also the latest one
    to have started. *)
Lemma last_started_latest (series : list sample) (s : sample) :
  ascending series -> last_started curTime series s ->
  forall s', In s' series -> to_us (validTime s') <= to_us curTime ->
             to_us (validTime s') <= to_us (validTime s).
Proof.
  intros Hasc (pre & post & -> & Hs & Hpost) s' Hin Hle.
  apply in_app_or in Hin. destruct Hin as [Hin|[->|Hin]].
  - clear Hpost Hs Hle. unfold ascending in Hasc.
    induction pre as [|a pre IH]; [contradiction|].
    inversion Hasc as [|? ? Hrest Hall]; subst.
    destruct Hin as [->|Hin].
    + rewrite Forall_forall in Hall. apply Hall.
      apply in_or_app. right. now left.
    + now apply IH.
  - lia.
  - specialize (Hpost _ Hin). lia.
Qed.

(** With numbers only, the scan holds nothing exactly on the empty series,
    and otherwise never drops back to nothing. *)
Lemma hold_from_numeric (series : list sample) (cur : Py.value) :
  numeric series ->
  Py.is_None (hold_from curTime series cur) = Py.is_None cur && 
                                               match series with [] => true | _ => false end.
Proof.
  revert cur. induction series as [|s series IH]; intros cur Hnum; simpl.
  - now rewrite andb_true_r.
  - inversion Hnum as [|? ? Hs Hrest]; subst.
    rewrite IH by assumption.
    assert (Hstep : Py.is_None (hold_step curTime cur s) = false).
    { unfold hold_step.
      destruct (Py.is_None cur || dt_geb curTime (validTime s)) eqn:E.
      - assumption.
      - apply orb_false_elim in E. tauto. }
    rewrite Hstep. simpl. now rewrite andb_false_r.
Qed.

(** A series whose samples all start later still yields its first value. *)
Lemma hold_first_when_all_later (s0 : sample) (rest : list sample) :
  Py.is_None (value s0) = false ->
  (forall s', In s' rest -> to_us curTime < to_us (validTime s')) ->
  hold_from curTime (s0 :: rest) Py.None_ = value s0.
Proof.
  intros H0 Hlater.
  change (hold_from curTime rest (hold_step curTime Py.None_ s0) = value s0).
  replace (hold_step curTime Py.None_ s0) with (value s0) by reflexivity.
  now apply hold_from_later.
Qed.

End Resampling.

(** ** Grid points *)

Lemma printd_returns (args : arguments) (m : message) (w : world) :
  fst (printd args m w) = Ok tt.
Proof. unfold printd. destruct (debug_output args); reflexivity. Qed.

Lemma report_missing_returns (args : arguments) cur (w : world) :
  fst (report_missing args cur w) = Ok tt.
Proof.
  destruct cur as [[p t] h]. unfold report_missing.
  destruct (_ || _); [apply printd_returns | reflexivity].
Qed.

(** The loop body, unfolded: the diagnostic, then the conversion, which
    decides between a grid point and an exception. *)
Lemma gridpoint_at_unfold (args : arguments) (precip temp humid : list sample)
      (curTime : datetime) (w : world) :
  let cur := resolve curTime precip temp humid in
  gridpoint_at args precip temp humid curTime w
  = (match convertCToF (resolved Temperature cur) with
     | Ok fahrenheit =>
         Ok {| time := curTime;
               probabilityOfPrecipitation := resolved Precipitation cur;
               temperature := fahrenheit;
               relativeHumidity := resolved Humidity cur |}
     | Raise e => Raise e
     end,
     snd (report_missing args cur w)).
Proof.
  intros cur. unfold gridpoint_at. fold cur.
  pose proof (report_missing_returns args cur w) as Hret.
  destruct cur as [[p t] h]. unfold report_missing in *. simpl resolved.
  unfold iobind at 1.
  destruct ((if Py.is_None p || Py.is_None t || Py.is_None h
             then printd args (NoDataFor p t h) else ioret tt) w) as [r w'].
  simpl in Hret. subst r. simpl snd.
  unfold iobind, lift. destruct (convertCToF t); reflexivity.
Qed.

(** C1. Step-hold resampling: for a grid time [t] and a series of numbers in
    ascending order of validity start of which at least one sample has
    started by [t], the value the loop resolves for that covariate is the
    value of the last sample that has started by [t] (which is also the
    latest such sample); for the temperature series the grid point records
    [1.8 * C + 32] for that value [C]. *)
Theorem step_hold_resampling (args : arguments) (t : datetime)
        (precip temp humid : list sample) (c : covariate) :
  let series := series_of c precip temp humid in
  let cur := resolve t precip temp humid in
  ascending series ->
  numeric series ->
  (exists s0, In s0 series /\ to_us (validTime s0) <= to_us t) ->
  exists s,
    last_started t series s /\
    (forall s', In s' series -> to_us (validTime s') <= to_us t ->
                to_us (validTime s') <= to_us (validTime s)) /\
    resolved c cur = value s /\
    (c = Temperature ->
     forall celsius, Py.to_float (value s) = Ok celsius ->
     forall w, exists w',
       gridpoint_at args precip temp humid t w
       = (Ok {| time := t;
                probabilityOfPrecipitation := resolved Precipitation cur;
                temperature := (1.8 * celsius + 32)%float;
                relativeHumidity := resolved Humidity cur |}, w')).
Proof.
  intros series cur Hasc Hnum Hsome.
  destruct (last_started_exists t series Hsome) as [s Hlast].
  exists s. split; [assumption|]. split.
  { now apply last_started_latest. }
  assert (Hval : resolved c cur = value s).
  { unfold cur. rewrite resolve_hold. now apply hold_last_started. }
  split; [assumption|].
  intros -> celsius Hcel w. eexists.
  rewrite gridpoint_at_unfold. fold cur. rewrite Hval.
  unfold convertCToF. rewrite Hcel. simpl. reflexivity.
Qed.

Lemma step_hold_resampling_witness :
  let t0 := noon_2024_03_05 in
  let t := dt_add t0 (timedelta 0 1 0) in
  (exists s,
      last_started t (scenario_temp t0) s /\
      (forall s', In s' (scenario_temp t0) -> to_us (validTime s') <= to_us t ->
                  to_us (validTime s') <= to_us (validTime s)) /\
      resolved Temperature (resolve t [] (scenario_temp t0) []) = value s /\
      (Temperature = Temperature ->
       forall celsius, Py.to_float (value s) = Ok celsius ->
       forall w, exists w',
         gridpoint_at quiet [] (scenario_temp t0) [] t w
         = (Ok {| time := t;
                  probabilityOfPrecipitation :=
                    resolved Precipitation (resolve t [] (scenario_temp t0) []);
                  temperature := (1.8 * celsius + 32)%float;
                  relativeHumidity :=
                    resolved Humidity (resolve t [] (scenario_temp t0) []) |}, w')))
  /\ resolved Temperature (resolve t [] (scenario_temp t0) []) = Py.Int 10
  /\ fst (gridpoint_at quiet [] (scenario_temp t0) [] t (world_with None offline))
     = Ok {| time := t; probabilityOfPrecipitation := Py.None_;
             temperature := 50%float; relativeHumidity := Py.None_ |}.
Proof.
  split.
  - apply (step_hold_resampling quiet (dt_add noon_2024_03_05 (timedelta 0 1 0))
             [] (scenario_temp noon_2024_03_05) [] Temperature).
    + repeat constructor; vm_compute; discriminate.
    + repeat constructor.
    + exists {| value := Py.Int 10; validTime := noon_2024_03_05 |}.
      split; [now left | vm_compute; discriminate].
  - split; vm_compute; reflexivity.
Defined.

(** The same scenario for every [t0]: 10 degrees Celsius are held at
    [t0 + 1h] and recorded as 50 degrees Fahrenheit. *)
Lemma scenario_10C_is_50F (args : arguments) (t0 : datetime) (w : world) :
  let t := dt_add t0 (timedelta 0 1 0) in
  resolved Temperature (resolve t [] (scenario_temp t0) []) = Py.Int 10 /\
  fst (gridpoint_at args [] (scenario_temp t0) [] t w)
  = Ok {| time := t; probabilityOfPrecipitation := Py.None_;
          temperature := 50%float; relativeHumidity := Py.None_ |}.
Proof.
  intros t.
  assert (Hres : resolve t [] (scenario_temp t0) [] = (Py.None_, Py.Int 10, Py.None_)).
  { unfold resolve, scenario_temp. simpl. unfold adopt. simpl.
    unfold dt_geb, t. rewrite !to_us_dt_add.
    replace (to_us t0 + timedelta 0 2 0 <=? to_us t0 + timedelta 0 1 0) with false.
    - reflexivity.
    - symmetry. apply Z.leb_gt. unfold timedelta, us_per_hour, us_per_minute, us_per_second. lia. }
  split.
  - now rewrite Hres.
  - rewrite gridpoint_at_unfold. rewrite Hres. simpl. reflexivity.
Qed.

(** C2, as stated, fails: a series whose only sample starts two hours after
    the grid time still sets the covariate (to that sample's value). *)
Lemma unset_iff_no_started_sample_fails :
  let t := noon_2024_03_05 in
  let precip := [ {| value := Py.Int 15; validTime := dt_add t (timedelta 0 2 0) |} ] in
  (forall s, In s precip -> to_us t < to_us (validTime s)) /\
  resolved Precipitation (resolve t precip [] []) = Py.Int 15.
Proof.
  split.
  - intros s [<-|[]]. vm_compute. reflexivity.
  - vm_compute. reflexivity.
Qed.

(** C2, amended. For a series of numbers the covariate of a grid point is
    unset exactly when the series (as retained for the loop) is empty; a
    non-empty series none of whose samples has started by [t] gives the value
    of its first sample. *)
Theorem unset_iff_series_empty (t : datetime) (precip temp humid : list sample)
        (c : covariate) :
  let series := series_of c precip temp humid in
  let cur := resolve t precip temp humid in
  numeric series ->
  (Py.is_None (resolved c cur) = true <-> series = []) /\
  (forall s0 rest,
      series = s0 :: rest ->
      (forall s', In s' series -> to_us t < to_us (validTime s')) ->
      resolved c cur = value s0).
Proof.
  intros series cur Hnum. unfold cur. rewrite resolve_hold. fold series. split.
  - rewrite hold_from_numeric by assumption. simpl.
    destruct series; split; intros H; try reflexivity; discriminate.
  - intros s0 rest Heq Hlater. rewrite Heq in *.
    apply hold_first_when_all_later.
    + inversion Hnum; assumption.
    + intros s' Hin. apply Hlater. now right.
Qed.

Lemma unset_iff_series_empty_witness :
  let t := noon_2024_03_05 in
  let precip := [ {| value := Py.Int 15; validTime := dt_add t (timedelta 0 2 0) |} ] in
  (Py.is_None (resolved Precipitation (resolve t precip [] [])) = true <-> precip = []) /\
  (forall s0 rest,
      precip = s0 :: rest ->
      (forall s', In s' precip -> to_us t < to_us (validTime s')) ->
      resolved Precipitation (resolve t precip [] []) = value s0).
Proof.
  apply (unset_iff_series_empty noon_2024_03_05
           [ {| value := Py.Int 15;
                validTime := dt_add noon_2024_03_05 (timedelta 0 2 0) |} ]
           [] [] Precipitation).
  repeat constructor.
Defined.

(** ** The half-hour grid *)

Lemma of_us_to_us (d : datetime) : valid_datetime d -> of_us (to_us d) = d.
Proof.
  destruct d as [o h m s u]. unfold valid_datetime. simpl. intros (Hh & Hm & Hs & Hu).
  unfold to_us, of_us, us_per_day, us_per_hour, us_per_minute, us_per_second. simpl.
  f_equal; Z.to_euclidean_division_equations; lia.
Qed.

Lemma valid_of_us (n : Z) : valid_datetime (of_us n).
Proof.
  unfold valid_datetime, of_us, us_per_day, us_per_hour, us_per_minute, us_per_second.
  simpl. repeat split; Z.to_euclidean_division_equations; lia.
Qed.

Lemma dt_add_dt_add (d : datetime) (a b : timedelta_t) :
  dt_add (dt_add d a) b = dt_add d (a + b).
Proof. unfold dt_add. rewrite to_us_of_us. f_equal. lia. Qed.

Lemma dt_add_0 (d : datetime) : valid_datetime d -> dt_add d 0 = d.
Proof. intros H. unfold dt_add. rewrite Z.add_0_r. now apply of_us_to_us. Qed.

Lemma grid_times_length (curTime : datetime) (n : nat) :
  List.length (grid_times curTime n) = n.
Proof. revert curTime. induction n; intros; simpl; auto. Qed.

Lemma grid_times_nth (n k : nat) (curTime : datetime) :
  valid_datetime curTime -> (k < n)%nat ->
  nth_error (grid_times curTime n) k = Some (dt_add curTime (Z.of_nat k * half_hour)).
Proof.
  revert k curTime. induction n as [|n IH]; intros k curTime Hv Hk; [lia|].
  destruct k as [|k]; cbn [grid_times nth_error].
  - now rewrite dt_add_0.
  - rewrite IH by (try (unfold dt_add; apply valid_of_us); lia).
    rewrite dt_add_dt_add. do 2 f_equal. rewrite Nat2Z.inj_succ. lia.
Qed.

Lemma grid_times_last (n : nat) (curTime d : datetime) :
  valid_datetime curTime ->
  last (grid_times curTime (S n)) d = dt_add curTime (Z.of_nat n * half_hour).
Proof.
  revert curTime. induction n as [|n IH]; intros curTime Hv.
  - simpl. now rewrite dt_add_0.
  - change (grid_times curTime (S (S n)))
      with (curTime :: grid_times (dt_add curTime half_hour) (S n)).
    change (last (curTime :: grid_times (dt_add curTime half_hour) (S n)) d)
      with (last (grid_times (dt_add curTime half_hour) (S n)) d).
    rewrite IH by (unfold dt_add; apply valid_of_us).
    rewrite dt_add_dt_add. f_equal. rewrite (Nat2Z.inj_succ n). lia.
Qed.

Lemma halfHourValues_loop (args : arguments) (oneDayHence : datetime)
      (precip temp humid : list sample) (curTime : datetime)
      (acc : list gridpoint) (w : world) :
  halfHourValues args oneDayHence precip temp humid curTime acc w
  = if dt_ltb curTime oneDayHence then
      match gridpoint_at args precip temp humid curTime w with
      | (Ok point, w') =>
          halfHourValues args oneDayHence precip temp humid
                         (dt_add curTime (timedelta 0 0 30)) (acc ++ [point]) w'
      | (Raise e, w') => (Raise e, w')
      end
    else (Ok acc, w).
Proof.
  funelim (halfHourValues args oneDayHence precip temp humid curTime acc w);
    match goal with
    | Hlt : dt_ltb _ _ = _ |- _ => rewrite Hlt
    end;
    try match goal with
        | Hbody : gridpoint_at _ _ _ _ _ _ = _ |- _ => rewrite Hbody
        end;
    reflexivity.
Qed.

Lemma steps_left_done (oneDayHence curTime : datetime) :
  dt_ltb curTime oneDayHence = false -> steps_left oneDayHence curTime = O.
Proof.
  unfold dt_ltb, steps_left. intros H. apply Z.ltb_ge in H.
  change (timedelta 0 0 30) with 1800000000.
  set (left := _ / _).
  assert (left <= 0) by (subst left; Z.to_euclidean_division_equations; lia).
  lia.
Qed.

Lemma steps_left_step (oneDayHence curTime : datetime) :
  dt_ltb curTime oneDayHence = true ->
  steps_left oneDayHence curTime
  = S (steps_left oneDayHence (dt_add curTime (timedelta 0 0 30))).
Proof.
  unfold dt_ltb, steps_left. intros H. apply Z.ltb_lt in H.
  rewrite to_us_dt_add. change (timedelta 0 0 30) with 1800000000.
  rewrite <- Z2Nat.inj_succ by (Z.to_euclidean_division_equations; lia).
  f_equal. Z.to_euclidean_division_equations. lia.
Qed.

(** A completed loop appended one point per remaining grid time, in order. *)
Lemma halfHourValues_times (args : arguments) (oneDayHence : datetime)
      (precip temp humid : list sample) (n : nat) :
  forall curTime acc w grid w',
    steps_left oneDayHence curTime = n ->
    halfHourValues args oneDayHence precip temp humid curTime acc w = (Ok grid, w') ->
    exists points,
      grid = acc ++ points /\ map time points = grid_times curTime n.
Proof.
  induction n as [|n IH]; intros curTime acc w grid w' Hn Hrun;
    rewrite halfHourValues_loop in Hrun;
    destruct (dt_ltb curTime oneDayHence) eqn:Hlt.
  - rewrite steps_left_step in Hn by assumption. discriminate.
  - inversion Hrun; subst. exists []. now rewrite app_nil_r.
  - rewrite gridpoint_at_unfold in Hrun.
    destruct (convertCToF _) as [f|e] eqn:Hconv; [|discriminate].
    rewrite steps_left_step in Hn by assumption. injection Hn as Hn.
    destruct (IH _ _ _ _ _ Hn Hrun) as (points & -> & Htimes).
    eexists (_ :: points). split.
    + rewrite <- app_assoc. reflexivity.
    + simpl. now rewrite Htimes.
  - rewrite steps_left_done in Hn by assumption. discriminate.
Qed.

(** The loop completes when the temperature resolves to something
    [convertCToF] accepts at every grid time. *)
Lemma halfHourValues_completes (args : arguments) (oneDayHence : datetime)
      (precip temp humid : list sample) :
  (forall t, exists f,
        convertCToF (resolved Temperature (resolve t precip temp humid)) = Ok f) ->
  forall n curTime acc w,
    steps_left oneDayHence curTime = n ->
    exists grid w',
      halfHourValues args oneDayHence precip temp humid curTime acc w = (Ok grid, w').
Proof.
  intros Hconv n. induction n as [|n IH]; intros curTime acc w Hn;
    rewrite halfHourValues_loop;
    destruct (dt_ltb curTime oneDayHence) eqn:Hlt.
  - rewrite steps_left_step in Hn by assumption. discriminate.
  - eauto.
  - rewrite gridpoint_at_unfold.
    destruct (Hconv curTime) as [f ->].
    rewrite steps_left_step in Hn by assumption. injection Hn as Hn.
    apply IH. assumption.
  - eauto.
Qed.

Lemma untouched_refl (w : world) : untouched w w.
Proof. repeat split. Qed.

Lemma untouched_trans (w1 w2 w3 : world) :
  untouched w1 w2 -> untouched w2 w3 -> untouched w1 w3.
Proof. unfold untouched. intros (? & ? & ?) (? & ? & ?). repeat split; congruence. Qed.

Lemma untouched_bind {A B : Type} (c : io A) (k : A -> io B) :
  (forall w, untouched w (snd (c w))) ->
  (forall a w, untouched w (snd (k a w))) ->
  forall w, untouched w (snd (iobind c k w)).
Proof.
  intros Hc Hk w. unfold iobind. specialize (Hc w).
  destruct (c w) as [[a|e] w1]; simpl in *; [|assumption].
  eapply untouched_trans; [eassumption | apply Hk].
Qed.

Lemma untouched_lift {A : Type} (r : result A) (w : world) :
  untouched w (snd (lift r w)).
Proof. apply untouched_refl. Qed.

Lemma untouched_printd (args : arguments) (m : message) (w : world) :
  untouched w (snd (printd args m w)).
Proof. unfold printd. destruct (debug_output args); repeat split. Qed.

Lemma untouched_report_missing (args : arguments) cur (w : world) :
  untouched w (snd (report_missing args cur w)).
Proof.
  destruct cur as [[p t] h]. unfold report_missing.
  destruct (_ || _); [apply untouched_printd | apply untouched_refl].
Qed.

Lemma untouched_halfHourValues (args : arguments) (oneDayHence : datetime)
      (precip temp humid : list sample) (n : nat) :
  forall curTime acc w,
    steps_left oneDayHence curTime = n ->
    untouched w (snd (halfHourValues args oneDayHence precip temp humid curTime acc w)).
Proof.
  induction n as [|n IH]; intros curTime acc w Hn;
    rewrite halfHourValues_loop;
    destruct (dt_ltb curTime oneDayHence) eqn:Hlt; try apply untouched_refl.
  - rewrite steps_left_step in Hn by assumption. discriminate.
  - rewrite gridpoint_at_unfold.
    pose proof (untouched_report_missing args (resolve curTime precip temp humid) w) as Hrep.
    destruct (convertCToF _) as [f|e]; [|exact Hrep].
    rewrite steps_left_step in Hn by assumption. injection Hn as Hn.
    eapply untouched_trans; [exact Hrep | now apply IH].
Qed.

Lemma untouched_output (args : arguments) (img : chart) (w : world) :
  untouched w (snd (output args img w)).
Proof.
  unfold output. apply untouched_bind.
  - intros w0. destruct (test args); repeat split.
  - intros _ w0. destruct (no_epaper args); [apply untouched_refl|].
    apply untouched_bind; [apply untouched_printd|]. intros _ w1.
    apply untouched_bind; [|intros; apply untouched_printd].
    intros w2. unfold epd_display. destruct (epd_works w2); repeat split.
Qed.

(** After [load_weather] a run neither fetches nor writes the cache. *)
Lemma untouched_process (localTz : tzinfo) (args : arguments)
      (localNow measureStart : datetime) (result : Forecast.t) (w : world) :
  untouched w (snd (process localTz args localNow measureStart result w)).
Proof.
  unfold process. revert w.
  repeat (apply untouched_bind; [intros; apply untouched_lift | intros ?]).
  apply untouched_bind; [intros; now eapply untouched_halfHourValues | intros ?].
  apply untouched_bind; [intros; apply untouched_lift | intros ?].
  apply untouched_bind; [intros; apply untouched_output | intros ? ?].
  apply untouched_refl.
Qed.

Lemma hold_from_source (t : datetime) (series : list sample) (cur : Py.value) :
  hold_from t series cur = cur \/
  exists s, In s series /\ hold_from t series cur = value s.
Proof.
  revert cur. induction series as [|a series IH]; intros cur; simpl.
  - now left.
  - destruct (IH (hold_step t cur a)) as [Hsame|(s & Hin & Hs)].
    + rewrite Hsame. unfold hold_step.
      destruct (_ || _); [right; exists a; auto | now left].
    + right. exists s. auto.
Qed.

(** On a non-empty series the loop always ends holding the value of one of
    its samples. *)
Lemma resolved_source (t : datetime) (precip temp humid : list sample) (c : covariate) :
  series_of c precip temp humid <> [] ->
  exists s, In s (series_of c precip temp humid) /\
            resolved c (resolve t precip temp humid) = value s.
Proof.
  intros Hne. rewrite resolve_hold.
  destruct (series_of c precip temp humid) as [|s0 rest]; [congruence|].
  change (hold_from t (s0 :: rest) Py.None_) with (hold_from t rest (value s0)).
  destruct (hold_from_source t rest (value s0)) as [->|(s & Hin & ->)].
  - exists s0. split; [now left | reflexivity].
  - exists s. split; [now right | reflexivity].
Qed.

Lemma measureStart_value (localNow : datetime) :
  valid_datetime localNow ->
  measureStart localNow
  = Ok {| ordinal := ordinal localNow; hour := hour localNow / 12 * 12;
          minute := 0; second := 0; microsecond := 0 |}.
Proof.
  destruct localNow as [o h m s u]. unfold valid_datetime. simpl.
  intros (Hh & _).
  assert (Hcases : h = 0 \/ h = 1 \/ h = 2 \/ h = 3 \/ h = 4 \/ h = 5 \/ h = 6 \/
                   h = 7 \/ h = 8 \/ h = 9 \/ h = 10 \/ h = 11 \/ h = 12 \/
                   h = 13 \/ h = 14 \/ h = 15 \/ h = 16 \/ h = 17 \/ h = 18 \/
                   h = 19 \/ h = 20 \/ h = 21 \/ h = 22 \/ h = 23) by lia.
  repeat (destruct Hcases as [->|Hcases]; [vm_compute; reflexivity|]).
  subst h. vm_compute. reflexivity.
Qed.

(** C10. With a well-formed clock reading, [measureStart] is the reading cut
    back to the last half-day boundary (hour 0 or 12, nothing below the
    hour).  A run whose resampling loop completes has built exactly 50 grid
    points: the first at [measureStart], each half an hour after the one
    before, the last half an hour before [measureStart] plus 25 hours; so the
    list handed to [drawGraph] has a first and a last element.  The loop does
    complete whenever the temperature series is not empty and each of its
    values converts to Fahrenheit. *)
Theorem half_hour_grid (localNow : datetime) :
  valid_datetime localNow ->
  exists start,
    measureStart localNow = Ok start /\
    ordinal start = ordinal localNow /\
    (hour start = 0 \/ hour start = 12) /\
    minute start = 0 /\ second start = 0 /\ microsecond start = 0 /\
    to_us start <= to_us localNow < to_us start + timedelta 0 12 0 /\
    forall (args : arguments) (precip temp humid : list sample) (w : world),
      (forall grid w',
          halfHourValues args (oneDayHence start) precip temp humid start [] w
          = (Ok grid, w') ->
          List.length grid = 50%nat /\
          (forall k, (k < 50)%nat ->
                     option_map time (nth_error grid k)
                     = Some (dt_add start (Z.of_nat k * timedelta 0 0 30))) /\
          (exists first rest, grid = first :: rest /\ time first = start) /\
          (forall d, time (last grid d)
                     = dt_add start (timedelta 1 1 0 - timedelta 0 0 30))) /\
      (temp <> [] ->
       (forall s, In s temp -> exists f, convertCToF (value s) = Ok f) ->
       exists grid w',
         halfHourValues args (oneDayHence start) precip temp humid start [] w
         = (Ok grid, w')).
Proof.
  intros Hvalid. eexists. split; [now apply measureStart_value|].
  set (start := {| ordinal := ordinal localNow; hour := hour localNow / 12 * 12;
                   minute := 0; second := 0; microsecond := 0 |}).
  destruct Hvalid as (Hh & Hm & Hs & Hu).
  assert (Hstart : valid_datetime start).
  { unfold valid_datetime, start. simpl. repeat split; try lia;
      Z.to_euclidean_division_equations; lia. }
  assert (Hsteps : steps_left (oneDayHence start) start = 50%nat).
  { unfold steps_left, oneDayHence. rewrite to_us_dt_add.
    replace (to_us start + timedelta 1 1 0 - to_us start) with (timedelta 1 1 0) by lia.
    reflexivity. }
  split; [reflexivity|].
  split; [simpl; Z.to_euclidean_division_equations; lia|].
  do 3 (split; [reflexivity|]).
  split.
  { unfold to_us, start, timedelta, us_per_day, us_per_hour, us_per_minute,
      us_per_second. simpl. Z.to_euclidean_division_equations. lia. }
  intros args precip temp humid w. split.
  - intros grid w' Hrun.
    destruct (halfHourValues_times _ _ _ _ _ _ _ _ _ _ _ Hsteps Hrun)
      as (points & -> & Htimes).
    simpl app.
    assert (Hlen : List.length points = 50%nat).
    { rewrite <- (length_map time), Htimes. apply grid_times_length. }
    split; [assumption|]. split; [|split].
    + intros k Hk. rewrite <- nth_error_map, Htimes.
      now apply grid_times_nth.
    + destruct points as [|first rest]; [discriminate|].
      exists first, rest. split; [reflexivity|].
      simpl in Htimes. now injection Htimes.
    + intros d.
      assert (Hlast : last (map time points) (time d) = time (last points d)).
      { clear. induction points as [|p [|q points] IH]; try reflexivity.
        exact IH. }
      rewrite <- Hlast, Htimes.
      change 50%nat with (S 49). rewrite grid_times_last by assumption.
      reflexivity.
  - intros Hne Hconv.
    apply (halfHourValues_completes args (oneDayHence start) precip temp humid)
      with (n := 50%nat); [|assumption].
    intros t.
    destruct (resolved_source t precip temp humid Temperature Hne) as (s & Hin & ->).
    now apply Hconv.
Qed.

Lemma half_hour_grid_witness :
  exists start,
    measureStart afternoon_2024_03_05 = Ok start /\
    ordinal start = ordinal afternoon_2024_03_05 /\
    (hour start = 0 \/ hour start = 12) /\
    minute start = 0 /\ second start = 0 /\ microsecond start = 0 /\
    to_us start <= to_us afternoon_2024_03_05 < to_us start + timedelta 0 12 0 /\
    forall (args : arguments) (precip temp humid : list sample) (w : world),
      (forall grid w',
          halfHourValues args (oneDayHence start) precip temp humid start [] w
          = (Ok grid, w') ->
          List.length grid = 50%nat /\
          (forall k, (k < 50)%nat ->
                     option_map time (nth_error grid k)
                     = Some (dt_add start (Z.of_nat k * timedelta 0 0 30))) /\
          (exists first rest, grid = first :: rest /\ time first = start) /\
          (forall d, time (last grid d)
                     = dt_add start (timedelta 1 1 0 - timedelta 0 0 30))) /\
      (temp <> [] ->
       (forall s, In s temp -> exists f, convertCToF (value s) = Ok f) ->
       exists grid w',
         halfHourValues args (oneDayHence start) precip temp humid start [] w
         = (Ok grid, w')).
Proof.
  apply (half_hour_grid afternoon_2024_03_05).
  unfold valid_datetime. simpl. lia.
Defined.

(** ** The look-ahead window *)

Lemma extractTimeValues_filter (localTz : tzinfo) (limit : datetime)
      (values : list Forecast.entry) (samples : list sample) :
  Forall2 (reads_as localTz) values samples ->
  extractTimeValues localTz limit values
  = Ok (filter (fun s => dt_geb limit (validTime s)) samples).
Proof.
  induction 1 as [|e s values samples [Htime Hval] _ IH]; simpl.
  - reflexivity.
  - rewrite Htime. simpl. destruct (dt_geb limit (validTime s)).
    + rewrite IH. simpl. destruct s as [v vt]. simpl in *. now subst v.
    + exact IH.
Qed.

(** C8, as stated, fails: with the window starting at noon, a sample whose
    validity starts at 11:00 the same day, before the window, is retained. *)
Lemma window_has_no_lower_bound :
  let entry := {| Forecast.validTime := "2024-03-05T11:00:00-05:00/PT1H";
                  Forecast.value := Py.Int 10 |} in
  let eleven := mkdatetime 738950 11 0 0 0 in
  measureStart afternoon_2024_03_05 = Ok noon_2024_03_05 /\
  extractTimeValues eastern (oneDayHence noon_2024_03_05) [entry]
  = Ok [ {| value := Py.Int 10; validTime := eleven |} ] /\
  to_us eleven < to_us noon_2024_03_05.
Proof. repeat split; vm_compute; reflexivity. Qed.

(** C8, amended. When every entry of a series reads as a sample,
    [extractTimeValues] returns, in order, exactly the samples whose validity
    start is at or before [measureStart] plus 25 hours; there is no lower
    bound. *)
Theorem retained_iff_before_horizon (localTz : tzinfo) (localNow start : datetime)
        (values : list Forecast.entry) (samples : list sample) :
  measureStart localNow = Ok start ->
  Forall2 (reads_as localTz) values samples ->
  exists kept,
    extractTimeValues localTz (oneDayHence start) values = Ok kept /\
    kept = filter (fun s => to_us (validTime s) <=? to_us start + timedelta 1 1 0) samples /\
    forall s, In s kept <->
              In s samples /\ to_us (validTime s) <= to_us start + timedelta 1 1 0.
Proof.
  intros _ Hreads. eexists.
  split; [exact (extractTimeValues_filter _ _ _ _ Hreads)|].
  assert (Hsame : forall s, dt_geb (oneDayHence start) (validTime s)
                            = (to_us (validTime s) <=? to_us start + timedelta 1 1 0)).
  { intros s. unfold dt_geb, oneDayHence. now rewrite to_us_dt_add. }
  split.
  - apply filter_ext. exact Hsame.
  - intros s. rewrite filter_In, Hsame, Z.leb_le. reflexivity.
Qed.

Lemma retained_iff_before_horizon_witness :
  let values := [ {| Forecast.validTime := "2024-03-05T11:00:00-05:00/PT1H";
                     Forecast.value := Py.Int 10 |};
                  {| Forecast.validTime := "2024-03-07T11:00:00-05:00/PT1H";
                     Forecast.value := Py.Float 12.5 |} ] in
  let samples := [ {| value := Py.Int 10; validTime := mkdatetime 738950 11 0 0 0 |};
                   {| value := Py.Float 12.5; validTime := mkdatetime 738952 11 0 0 0 |} ] in
  exists kept,
    extractTimeValues eastern (oneDayHence noon_2024_03_05) values = Ok kept /\
    kept = filter (fun s => to_us (validTime s)
                            <=? to_us noon_2024_03_05 + timedelta 1 1 0) samples /\
    forall s, In s kept <->
              In s samples /\
              to_us (validTime s) <= to_us noon_2024_03_05 + timedelta 1 1 0.
Proof.
  apply (retained_iff_before_horizon eastern afternoon_2024_03_05 noon_2024_03_05).
  - vm_compute. reflexivity.
  - repeat constructor.
Defined.

(** ** The cache file *)

(** C3, as stated, fails: runs on two different local days use the same
    cache file path. *)
Lemma cache_path_same_on_different_days :
  let tuesday := afternoon_2024_03_05 in
  let wednesday := mkdatetime 738951 9 0 0 0 in
  ordinal tuesday <> ordinal wednesday /\
  weather_cachefile tuesday = weather_cachefile wednesday.
Proof. split; [discriminate | reflexivity]. Qed.

(** C3, amended. The cache file path is the fixed name [weather_cache.json]
    whatever the local date: the format handed to [strftime] has no
    directive.  Any two runs use the same path. *)
Theorem cache_path_is_fixed (localNow otherNow : datetime) :
  weather_cachefile localNow = "weather_cache.json"%string /\
  weather_cachefile localNow = weather_cachefile otherNow.
Proof. split; reflexivity. Qed.

Lemma strftime_plain (d : datetime) (fmt : string) :
  (forall c, In c (list_ascii_of_string fmt) -> c <> "%"%char) ->
  strftime d fmt = fmt.
Proof.
  induction fmt as [|c fmt IH]; intros Hplain; simpl.
  - reflexivity.
  - destruct (Ascii.eqb_spec c "%") as [->|_].
    + exfalso. apply (Hplain "%"%char); [now left | reflexivity].
    + rewrite IH; [reflexivity|]. intros k Hk. apply Hplain. now right.
Qed.

Lemma load_weather_fresh (localTz : tzinfo) (args : arguments)
      (localNow laterNow : datetime) (w : world) (doc : Forecast.t)
      (updated : datetime) :
  files w (weather_cachefile localNow) = Some doc ->
  extractTimeFromDuration localTz (Forecast.updateTime doc) = Ok (Some updated) ->
  to_us laterNow <= to_us updated + timedelta 0 24 0 ->
  load_weather localTz args localNow laterNow w
  = (Ok doc, snd (printd args (LoadingCached (weather_cachefile localNow)) w)).
Proof.
  intros Hfile Hparse Hage. unfold load_weather, get_file.
  unfold iobind at 1. rewrite Hfile.
  unfold iobind at 1. unfold iobind at 1.
  pose proof (printd_returns args (LoadingCached (weather_cachefile localNow)) w) as Hp.
  destruct (printd args _ w) as [r w1]. simpl in Hp. subst r. simpl snd.
  unfold iobind at 1. unfold lift at 1. rewrite Hparse.
  assert (Hlt : dt_ltb (dt_add updated (timedelta 0 24 0)) laterNow = false).
  { unfold dt_ltb. rewrite to_us_dt_add. apply Z.ltb_ge. assumption. }
  rewrite Hlt. reflexivity.
Qed.

Lemma load_weather_fetches (localTz : tzinfo) (args : arguments)
      (localNow laterNow : datetime) (w : world) (fetched : Forecast.t) :
  noaa w = Ok fetched ->
  (files w (weather_cachefile localNow) = None \/
   exists doc updated,
     files w (weather_cachefile localNow) = Some doc /\
     extractTimeFromDuration localTz (Forecast.updateTime doc) = Ok (Some updated) /\
     to_us updated + timedelta 0 24 0 < to_us laterNow) ->
  exists w1,
    load_weather localTz args localNow laterNow w = (Ok fetched, w1) /\
    fetches w1 = S (fetches w) /\
    files w1 (weather_cachefile localNow) = Some fetched /\
    (forall p, p <> weather_cachefile localNow -> files w1 p = files w p).
Proof.
  change (weather_cachefile localNow) with "weather_cache.json"%string.
  intros Hnoaa Hcase.
  assert (Hwrite : forall p, (p =? "weather_cache.json")%string = false <->
                             p <> "weather_cache.json"%string).
  { intros p. destruct (String.eqb_spec p "weather_cache.json"); split;
      congruence. }
  unfold load_weather, get_file, retrieve_weather, get_forecasts, write_file, printd.
  change (weather_cachefile localNow) with "weather_cache.json"%string.
  destruct Hcase as [Hnone|(doc & updated & Hfile & Hparse & Hold)].
  - unfold iobind, ioret. rewrite Hnone.
    destruct (debug_output args); simpl; rewrite Hnoaa; simpl;
      (eexists; split; [reflexivity|]; simpl;
       repeat split; intros p Hp; apply Hwrite in Hp; now rewrite Hp).
  - assert (Hlt : dt_ltb (dt_add updated (timedelta 0 24 0)) laterNow = true).
    { unfold dt_ltb. rewrite to_us_dt_add. now apply Z.ltb_lt. }
    unfold iobind, ioret, lift. rewrite Hfile.
    destruct (debug_output args); simpl; rewrite Hparse, Hlt; simpl;
      rewrite Hnoaa; simpl;
      (eexists; split; [reflexivity|]; simpl;
       repeat split; intros p Hp; apply Hwrite in Hp; now rewrite Hp).
Qed.

(** C4. A run whose cache file exists with an [updateTime] no more than 24
    hours before the clock reading uses the cached document as it is (the
    rest of the run works on that document) and makes no request; a run whose
    cache file is missing, or older than that, makes exactly one request,
    works on the answer and leaves it in the cache file. *)
Theorem cache_or_fetch (localTz : tzinfo) (args : arguments)
        (localNow laterNow start : datetime) (w : world) :
  measureStart localNow = Ok start ->
  let path := weather_cachefile localNow in
  let after := snd (script localTz args localNow laterNow w) in
  (forall doc updated,
      files w path = Some doc ->
      extractTimeFromDuration localTz (Forecast.updateTime doc) = Ok (Some updated) ->
      to_us laterNow <= to_us updated + timedelta 0 24 0 ->
      exists w1,
        load_weather localTz args localNow laterNow w = (Ok doc, w1) /\
        script localTz args localNow laterNow w
        = process localTz args localNow start doc w1 /\
        fetches after = fetches w /\
        files after = files w) /\
  (forall fetched,
      noaa w = Ok fetched ->
      (files w path = None \/
       exists doc updated,
         files w path = Some doc /\
         extractTimeFromDuration localTz (Forecast.updateTime doc) = Ok (Some updated) /\
         to_us updated + timedelta 0 24 0 < to_us laterNow) ->
      exists w1,
        load_weather localTz args localNow laterNow w = (Ok fetched, w1) /\
        script localTz args localNow laterNow w
        = process localTz args localNow start fetched w1 /\
        fetches after = S (fetches w) /\
        files after path = Some fetched).
Proof.
  intros Hstart path after.
  assert (Hscript : forall doc w1,
             load_weather localTz args localNow laterNow w = (Ok doc, w1) ->
             script localTz args localNow laterNow w
             = process localTz args localNow start doc w1).
  { intros doc w1 Hload. unfold script, iobind, lift.
    rewrite Hstart, Hload. reflexivity. }
  split.
  - intros doc updated Hfile Hparse Hage.
    pose proof (load_weather_fresh localTz args localNow laterNow w doc updated
                  Hfile Hparse Hage) as Hload.
    eexists. split; [exact Hload|]. split; [now apply Hscript|].
    unfold after. rewrite (Hscript _ _ Hload).
    destruct (untouched_process localTz args localNow start doc
                (snd (printd args (LoadingCached (weather_cachefile localNow)) w)))
      as (Hf & _ & Hn).
    destruct (untouched_printd args (LoadingCached (weather_cachefile localNow)) w)
      as (Hf' & _ & Hn').
    split; congruence.
  - intros fetched Hnoaa Hcase.
    destruct (load_weather_fetches localTz args localNow laterNow w fetched
                Hnoaa Hcase) as (w1 & Hload & Hcount & Hfile & _).
    exists w1. split; [exact Hload|]. split; [now apply Hscript|].
    unfold after. rewrite (Hscript _ _ Hload).
    destruct (untouched_process localTz args localNow start fetched w1)
      as (Hf & _ & Hn).
    split; [congruence|]. unfold path. now rewrite Hf.
Qed.

(** ** The order of binary64 numbers *)

Module FloatOrder.

Ltac sf_cases :=
  repeat match goal with
         | |- context [Z.compare ?a ?b] => destruct (Z.compare_spec a b)
         | |- context [Pos.compare ?a ?b] => destruct (Pos.compare_spec a b)
         | b : bool |- _ => destruct b
         end.

Ltac sf_order :=
  change (Pos.compare_cont Eq) with Pos.compare;
  sf_cases; simpl; try discriminate; try reflexivity; intros; try lia.

Lemma SFleb_trans (a b c : spec_float) :
  SFleb a b = true -> SFleb b c = true -> SFleb a c = true.
Proof.
  unfold SFleb, SFcompare.
  destruct a as [sa|sa| |sa ma ea], b as [sb|sb| |sb mb eb], c as [sc|sc| |sc mc ec];
    try discriminate; try reflexivity; sf_order.
Qed.

Lemma SFleb_total (a b : spec_float) :
  SFeqb a a = true -> SFeqb b b = true -> SFltb b a = false -> SFleb a b = true.
Proof.
  unfold SFleb, SFltb, SFeqb, SFcompare.
  destruct a as [sa|sa| |sa ma ea], b as [sb|sb| |sb mb eb];
    try discriminate; try reflexivity; sf_order.
Qed.

Lemma SFleb_number (a b : spec_float) :
  SFleb a b = true -> SFeqb a a = true /\ SFeqb b b = true.
Proof.
  unfold SFleb, SFeqb, SFcompare.
  destruct a as [sa|sa| |sa ma ea], b as [sb|sb| |sb mb eb];
    try discriminate; sf_order; auto.
Qed.

Lemma SFleb_antisym (a b : spec_float) :
  SFleb a b = true -> SFleb b a = true ->
  a = b \/ (exists s t, a = S754_zero s /\ b = S754_zero t).
Proof.
  unfold SFleb, SFcompare.
  destruct a as [sa|sa| |sa ma ea], b as [sb|sb| |sb mb eb];
    try discriminate; eauto; sf_order; subst; auto.
Qed.

Local Open Scope float_scope.

Lemma ltb_leb (x y : float) : (x <? y) = true -> (x <=? y) = true.
Proof.
  rewrite ltb_spec, leb_spec. unfold SFltb, SFleb.
  destruct (SFcompare _ _) as [[]|]; congruence.
Qed.

Lemma leb_trans (x y z : float) :
  (x <=? y) = true -> (y <=? z) = true -> (x <=? z) = true.
Proof. rewrite !leb_spec. apply SFleb_trans. Qed.

Lemma leb_total (x y : float) :
  number x -> number y -> (y <? x) = false -> (x <=? y) = true.
Proof. unfold number. rewrite !eqb_spec, ltb_spec, leb_spec. apply SFleb_total. Qed.

Lemma leb_refl (x : float) : number x -> (x <=? x) = true.
Proof.
  unfold number. rewrite eqb_spec, leb_spec. unfold SFeqb, SFleb.
  destruct (SFcompare _ _) as [[]|]; congruence.
Qed.

Lemma leb_number (x y : float) : (x <=? y) = true -> number x /\ number y.
Proof. unfold number. rewrite leb_spec, !eqb_spec. apply SFleb_number. Qed.

Lemma zero_cases (x : float) (s : bool) :
  Prim2SF x = S754_zero s -> x = 0 \/ x = (-0).
Proof.
  intros H. rewrite <- (SF2Prim_Prim2SF x), H.
  destruct s; [right | left]; reflexivity.
Qed.

(** Two numbers that are each at most the other differ at most in the sign
    of zero, which adding or subtracting ten erases. *)
Lemma leb_antisym_shift (x y : float) :
  (x <=? y) = true -> (y <=? x) = true ->
  x - 10 = y - 10 /\ x + 10 = y + 10.
Proof.
  rewrite !leb_spec. intros Hxy Hyx.
  destruct (SFleb_antisym _ _ Hxy Hyx) as [Heq|(s & t & Hx & Hy)].
  - apply Prim2SF_inj in Heq. now subst.
  - destruct (zero_cases _ _ Hx) as [->| ->], (zero_cases _ _ Hy) as [->| ->];
      split; vm_compute; reflexivity.
Qed.

End FloatOrder.

(** ** The temperature scale *)

Section Extrema.

Import FloatOrder.
Local Open Scope float_scope.

Lemma fold_min_least (rest : list float) (a : float) :
  (forall x, In x (a :: rest) -> number x) ->
  minimum_of (fold_left (fun m y => if y <? m then y else m) rest a) (a :: rest).
Proof.
  revert a. induction rest as [|y rest IH]; intros a Hnum.
  - split; [now left|]. intros x [<-|[]]. apply leb_refl, Hnum. now left.
  - assert (Ha : number a) by (apply Hnum; now left).
    assert (Hy : number y) by (apply Hnum; right; now left).
    simpl fold_left. set (a' := if y <? a then y else a).
    assert (Ha' : (a' <=? a) = true /\ (a' <=? y) = true /\ (a' = a \/ a' = y)).
    { unfold a'. destruct (y <? a) eqn:E.
      - repeat split; [now apply ltb_leb | now apply leb_refl | now right].
      - repeat split; [now apply leb_refl | now apply leb_total | now left]. }
    destruct Ha' as (Hle_a & Hle_y & Hwhich).
    destruct (IH a') as [Hin Hleast].
    { intros x [<-|Hx]; [destruct Hwhich as [->| ->]; assumption|].
      apply Hnum. right. now right. }
    split.
    + destruct Hin as [Hin|Hin].
      * rewrite <- Hin. destruct Hwhich as [->| ->]; [now left | right; now left].
      * right. now right.
    + assert (Hr : (fold_left (fun m y0 => if y0 <? m then y0 else m) rest a' <=? a')
                   = true) by (apply Hleast; now left).
      intros x [<-|[<-|Hx]].
      * eapply leb_trans; eassumption.
      * eapply leb_trans; eassumption.
      * apply Hleast. now right.
Qed.

Lemma fold_max_greatest (rest : list float) (a : float) :
  (forall x, In x (a :: rest) -> number x) ->
  maximum_of (fold_left (fun m y => if m <? y then y else m) rest a) (a :: rest).
Proof.
  revert a. induction rest as [|y rest IH]; intros a Hnum.
  - split; [now left|]. intros x [<-|[]]. apply leb_refl, Hnum. now left.
  - assert (Ha : number a) by (apply Hnum; now left).
    assert (Hy : number y) by (apply Hnum; right; now left).
    simpl fold_left. set (a' := if a <? y then y else a).
    assert (Ha' : (a <=? a') = true /\ (y <=? a') = true /\ (a' = a \/ a' = y)).
    { unfold a'. destruct (a <? y) eqn:E.
      - repeat split; [now apply ltb_leb | now apply leb_refl | now right].
      - repeat split; [now apply leb_refl | now apply leb_total | now left]. }
    destruct Ha' as (Hle_a & Hle_y & Hwhich).
    destruct (IH a') as [Hin Hmost].
    { intros x [<-|Hx]; [destruct Hwhich as [->| ->]; assumption|].
      apply Hnum. right. now right. }
    split.
    + destruct Hin as [Hin|Hin].
      * rewrite <- Hin. destruct Hwhich as [->| ->]; [now left | right; now left].
      * right. now right.
    + assert (Hr : (a' <=? fold_left (fun m y0 => if m <? y0 then y0 else m) rest a')
                   = true) by (apply Hmost; now left).
      intros x [<-|[<-|Hx]].
      * eapply leb_trans; eassumption.
      * eapply leb_trans; eassumption.
      * apply Hmost. now right.
Qed.

Lemma float_of_small_ints :
  Py.float_of_int 10 = Ok 10 /\ Py.float_of_int 50 = Ok 50 /\
  Py.float_of_int 60 = Ok 60.
Proof. repeat split; vm_compute; reflexivity. Qed.

(** [min(50, x)] and [max(60, x)] for a float [x]. *)
Lemma min2_50 (x : float) :
  Py.min2 (Py.Int 50) (Py.Float x)
  = Ok (if x <? 50 then Py.Float x else Py.Int 50).
Proof.
  unfold Py.min2, Py.lt, Py.to_float.
  destruct float_of_small_ints as (_ & -> & _). reflexivity.
Qed.

Lemma max2_60 (x : float) :
  Py.max2 (Py.Int 60) (Py.Float x)
  = Ok (if 60 <? x then Py.Float x else Py.Int 60).
Proof.
  unfold Py.max2, Py.lt, Py.to_float.
  destruct float_of_small_ints as (_ & _ & ->). reflexivity.
Qed.

Lemma tempExtents_value (a : float) (rest : list float) :
  let lowest := fold_left (fun m y => if y <? m then y else m) rest a in
  let highest := fold_left (fun m y => if m <? y then y else m) rest a in
  tempExtents (a :: rest)
  = Ok (if lowest - 10 <? 50 then Py.Float (lowest - 10) else Py.Int 50,
        if 60 <? highest + 10 then Py.Float (highest + 10) else Py.Int 60).
Proof.
  intros lowest highest. unfold tempExtents, Py.min_list, Py.max_list.
  fold lowest highest. unfold rbind at 1.
  unfold Py.sub, Py.add, Py.arith, Py.to_float.
  destruct float_of_small_ints as (-> & _ & _).
  unfold rbind at 1. unfold rbind at 1. unfold rbind at 1.
  rewrite min2_50. unfold rbind at 1. unfold rbind at 1.
  unfold rbind at 1. unfold rbind at 1. unfold rbind at 1.
  rewrite max2_60. reflexivity.
Qed.

End Extrema.

(** C5. For a non-empty list of temperatures with minimum [m] and maximum
    [M], the extents of the temperature scale are [min(50, m - 10)] and
    [max(60, M + 10)]; the low extent is at most 50 and the high extent at
    least 60, so the scale always covers 50 to 60 degrees, also when every
    temperature lies between 55 and 58. *)
Theorem temperature_scale (temperatures : list float) (m M : float) :
  temperatures <> [] ->
  minimum_of m temperatures ->
  maximum_of M temperatures ->
  exists lo hi,
    tempExtents temperatures = Ok (lo, hi) /\
    Py.min2 (Py.Int 50) (Py.Float (m - 10)) = Ok lo /\
    Py.max2 (Py.Int 60) (Py.Float (M + 10)) = Ok hi /\
    Py.le lo (Py.Int 50) = Ok true /\
    Py.le (Py.Int 60) hi = Ok true.
Proof.
  intros Hne [Hm_in Hm] [HM_in HM].
  destruct temperatures as [|a rest]; [congruence|]. clear Hne.
  assert (Hnum : forall x, In x (a :: rest) -> number x).
  { intros x Hx. exact (proj2 (FloatOrder.leb_number _ _ (Hm x Hx))). }
  destruct (fold_min_least rest a Hnum) as [Hlow_in Hlow].
  destruct (fold_max_greatest rest a Hnum) as [Hhigh_in Hhigh].
  rewrite tempExtents_value.
  destruct (FloatOrder.leb_antisym_shift _ _ (Hlow _ Hm_in) (Hm _ Hlow_in)) as [-> _].
  destruct (FloatOrder.leb_antisym_shift _ _ (Hhigh _ HM_in) (HM _ Hhigh_in)) as [_ <-].
  do 2 eexists. split; [reflexivity|].
  rewrite min2_50, max2_60. do 2 (split; [reflexivity|]).
  destruct float_of_small_ints as (_ & H50 & H60). split.
  - destruct (m - 10 <? 50)%float eqn:E; [|reflexivity].
    unfold Py.le, Py.to_float. rewrite H50. simpl.
    now rewrite (FloatOrder.ltb_leb _ _ E).
  - destruct (60 <? M + 10)%float eqn:E; [|reflexivity].
    unfold Py.le, Py.to_float. rewrite H60. simpl.
    now rewrite (FloatOrder.ltb_leb _ _ E).
Qed.

Lemma temperature_scale_witness :
  let temperatures := [55.4; 58; 57.2]%float in
  exists lo hi,
    tempExtents temperatures = Ok (lo, hi) /\
    Py.min2 (Py.Int 50) (Py.Float (55.4 - 10)) = Ok lo /\
    Py.max2 (Py.Int 60) (Py.Float (58 + 10)) = Ok hi /\
    Py.le lo (Py.Int 50) = Ok true /\
    Py.le (Py.Int 60) hi = Ok true.
Proof.
  apply (temperature_scale [55.4; 58; 57.2]%float 55.4%float 58%float).
  - discriminate.
  - split; [now left|].
    intros x [<-|[<-|[<-|[]]]]; vm_compute; reflexivity.
  - split; [right; now left|].
    intros x [<-|[<-|[<-|[]]]]; vm_compute; reflexivity.
Defined.

(** The scale of the scenario, evaluated: 45.4 to 68 degrees. *)
Lemma temperature_scale_55_58 :
  tempExtents [55.4; 58; 57.2]%float = Ok (Py.Float 45.4, Py.Float 68).
Proof. vm_compute. reflexivity. Qed.

(** ** Command-line validation *)

Lemma type_hours_Ok (text : string) (v : Z) :
  type_hours text = Ok v <-> py_int text = Ok v /\ 0 <= v <= 23.
Proof.
  unfold type_hours. destruct (py_int text) as [val|e]; simpl.
  - destruct ((val <? 0) || (val >? 23)) eqn:E.
    + split; [discriminate|]. intros [H Hr]. injection H as ->.
      apply orb_true_iff in E. destruct E as [E|E].
      * apply Z.ltb_lt in E. lia.
      * apply Z.gtb_lt in E. lia.
    + apply orb_false_iff in E. destruct E as [E1 E2].
      apply Z.ltb_ge in E1. rewrite Z.gtb_ltb in E2. apply Z.ltb_ge in E2.
      split.
      * intros H. injection H as ->. split; [reflexivity | lia].
      * intros [H _]. exact H.
  - split; [discriminate | intros [H _]; discriminate].
Qed.

Lemma parse_args_rejects (given : command_line) (text : string) (e : exn) :
  given_current_time given = Some text ->
  type_hours text = Raise e ->
  exists e', parse_args given = Raise e'.
Proof.
  intros Hgiven Hraise. unfold parse_args. rewrite Hgiven, Hraise.
  destruct e; simpl; eauto.
Qed.

(** C9. [--current-time] is accepted with value [v] exactly when its text
    reads (by [int]) as an integer [v] from 0 to 23, and the decimal numeral
    of every such [v] is accepted; any other text makes [type_hours] raise,
    so that [parse_args] does not return and the run ends there, with the
    world as it was: nothing printed, fetched, written or drawn. *)
Theorem current_time_validation (text : string) (v : Z) :
  (type_hours text = Ok v <-> py_int text = Ok v /\ 0 <= v <= 23) /\
  (0 <= v <= 23 -> type_hours (decimal v) = Ok v) /\
  (type_hours text = Ok v ->
   forall given, given_current_time given = Some text ->
                 exists args, parse_args given = Ok args /\ current_time args = Some v) /\
  ((forall u, ~ (py_int text = Ok u /\ 0 <= u <= 23)) ->
   (exists e, type_hours text = Raise e) /\
   forall localTz localNow laterNow given w,
     given_current_time given = Some text ->
     exists e, run localTz localNow laterNow given w = (Raise e, w)).
Proof.
  split; [apply type_hours_Ok|]. split; [|split].
  - intros Hv.
    assert (Hcases : v = 0 \/ v = 1 \/ v = 2 \/ v = 3 \/ v = 4 \/ v = 5 \/ v = 6 \/
                     v = 7 \/ v = 8 \/ v = 9 \/ v = 10 \/ v = 11 \/ v = 12 \/
                     v = 13 \/ v = 14 \/ v = 15 \/ v = 16 \/ v = 17 \/ v = 18 \/
                     v = 19 \/ v = 20 \/ v = 21 \/ v = 22 \/ v = 23) by lia.
    repeat (destruct Hcases as [->|Hcases]; [vm_compute; reflexivity|]).
    subst v. vm_compute. reflexivity.
  - intros Hok given Hgiven. unfold parse_args. rewrite Hgiven, Hok. simpl. eauto.
  - intros Hnone.
    assert (Hraise : exists e, type_hours text = Raise e).
    { destruct (type_hours text) as [u|e] eqn:E; [|eauto].
      exfalso. apply (Hnone u). now apply type_hours_Ok. }
    split; [exact Hraise|].
    intros localTz localNow laterNow given w Hgiven.
    destruct Hraise as [e He].
    destruct (parse_args_rejects given text e Hgiven He) as [e' He'].
    exists e'. unfold run, iobind, lift. now rewrite He'.
Qed.

Lemma current_time_validation_witness :
  type_hours "5" = Ok 5 /\
  parse_args (test_run true (Some " 23 "%string))
  = Ok {| test := true; no_epaper := true; current_time := Some 23;
          debug_output := true |} /\
  type_hours "24" = Raise (Exception_ "Value must be an integer between 0 and 23") /\
  type_hours "five" = Raise ValueError /\
  (exists e, run eastern afternoon_2024_03_05 afternoon_2024_03_05
                 (test_run true (Some "24"%string)) (world_with None offline) = (Raise e, (world_with None offline))).
Proof.
  split.
  { apply (proj1 (current_time_validation "5" 5)).
    split; [vm_compute; reflexivity | lia]. }
  split; [vm_compute; reflexivity|].
  split; [vm_compute; reflexivity|].
  split; [vm_compute; reflexivity|].
  destruct (proj2 (proj2 (proj2 (current_time_validation "24" 0)))) as [_ Hrun].
  - intros u [Hint Hrange]. vm_compute in Hint. injection Hint as <-. lia.
  - apply Hrun. reflexivity.
Defined.

(** ** Example documents and worlds *)

Lemma cache_or_fetch_witness :
  fst (load_weather eastern quiet afternoon_2024_03_05 afternoon_2024_03_05
                    (world_with (Some sample_forecast) offline))
  = Ok sample_forecast /\
  fetches (snd (script eastern quiet afternoon_2024_03_05 afternoon_2024_03_05
                       (world_with (Some sample_forecast) offline))) = 0%nat /\
  fetches (snd (script eastern quiet afternoon_2024_03_05 next_afternoon
                       (world_with (Some sample_forecast) (Ok newer_forecast))))
  = 1%nat /\
  files (snd (script eastern quiet afternoon_2024_03_05 next_afternoon
                     (world_with (Some sample_forecast) (Ok newer_forecast))))
        "weather_cache.json"
  = Some newer_forecast.
Proof.
  assert (Hstart : measureStart afternoon_2024_03_05 = Ok noon_2024_03_05)
    by (vm_compute; reflexivity).
  pose proof (cache_or_fetch eastern quiet afternoon_2024_03_05 afternoon_2024_03_05
                noon_2024_03_05 (world_with (Some sample_forecast) offline) Hstart)
    as Hfresh.
  pose proof (cache_or_fetch eastern quiet afternoon_2024_03_05 next_afternoon
                noon_2024_03_05
                (world_with (Some sample_forecast) (Ok newer_forecast)) Hstart)
    as Hstale.
  cbv zeta in Hfresh, Hstale.
  destruct Hfresh as [Hfresh _]. destruct Hstale as [_ Hstale].
  destruct (Hfresh sample_forecast noon_2024_03_05) as (w1 & Hload & _ & Hcount & _).
  { reflexivity. }
  { vm_compute. reflexivity. }
  { vm_compute. discriminate. }
  destruct (Hstale newer_forecast) as (w2 & _ & _ & Hcount2 & Hfile2).
  { reflexivity. }
  { right. exists sample_forecast, noon_2024_03_05.
    repeat split; vm_compute; reflexivity. }
  split; [rewrite Hload; reflexivity|].
  split; [rewrite Hcount; reflexivity|].
  split; [rewrite Hcount2; reflexivity | exact Hfile2].
Defined.

(** ** The current-time marker *)

Lemma markerTime_past_midnight (args : arguments) (beginTime curTime : datetime)
      (n : Z) :
  current_time args = Some n ->
  24 <= hour beginTime + n ->
  markerTime args beginTime curTime = Raise ValueError.
Proof.
  intros Hn Hlate. unfold markerTime, replace. rewrite Hn.
  replace (hour beginTime + n <? 24) with false by (symmetry; apply Z.ltb_ge; lia).
  rewrite andb_false_r. reflexivity.
Qed.

Lemma markerTime_same_day (args : arguments) (beginTime curTime : datetime)
      (n : Z) :
  current_time args = Some n ->
  valid_datetime beginTime ->
  0 <= n -> hour beginTime + n <= 23 ->
  markerTime args beginTime curTime = Ok (dt_add beginTime (timedelta 0 n 0)).
Proof.
  intros Hn (Hh & Hm & Hs & Hu) Hpos Hday. unfold markerTime, replace. rewrite Hn.
  replace (0 <=? hour beginTime + n) with true by (symmetry; apply Z.leb_le; lia).
  replace (hour beginTime + n <? 24) with true by (symmetry; apply Z.ltb_lt; lia).
  replace (0 <=? minute beginTime) with true by (symmetry; apply Z.leb_le; lia).
  replace (minute beginTime <? 60) with true by (symmetry; apply Z.ltb_lt; lia).
  replace (0 <=? second beginTime) with true by (symmetry; apply Z.leb_le; lia).
  replace (second beginTime <? 60) with true by (symmetry; apply Z.ltb_lt; lia).
  replace (0 <=? microsecond beginTime) with true by (symmetry; apply Z.leb_le; lia).
  replace (microsecond beginTime <? 1000000) with true
    by (symmetry; apply Z.ltb_lt; lia).
  simpl. f_equal. unfold dt_add.
  set (moved := {| ordinal := ordinal beginTime; hour := hour beginTime + n;
                   minute := minute beginTime; second := second beginTime;
                   microsecond := microsecond beginTime |}).
  replace (to_us beginTime + timedelta 0 n 0) with (to_us moved).
  - symmetry. apply of_us_to_us. unfold valid_datetime, moved. simpl. lia.
  - unfold to_us, moved, timedelta. simpl. lia.
Qed.


(** [--current-time 5] in the afternoon: the mark is at 17:00, x = 153.8,
    and the band is the 20 pixels around it. *)
Lemma marker_at_five_hours :
  option_map marker_band
    (match fst (run eastern afternoon_2024_03_05 afternoon_2024_03_05
                    (test_run false (Some "5"%string))
                    (world_with (Some sample_forecast) offline)) with
     | Ok img => Some img
     | Raise _ => None
     end)
  = Some (Py.Float 143.80000000000001, Py.Float 163.80000000000001).
Proof. vm_compute. reflexivity. Qed.

(** C6 (defect). With the window starting at noon, [--current-time 12] is
    accepted by the parser, but [drawGraph] computes the marker time with
    [replace(hour=12+12)], which raises [ValueError]: no marker and no image
    is produced.  The same happens for every offset that reaches past
    midnight. *)
Theorem spoofed_hour_past_midnight_raises :
  let given := test_run false (Some "12"%string) in
  let w := world_with (Some sample_forecast) offline in
  parse_args given
  = Ok {| test := true; no_epaper := true; current_time := Some 12;
          debug_output := false |} /\
  measureStart afternoon_2024_03_05 = Ok noon_2024_03_05 /\
  fst (run eastern afternoon_2024_03_05 afternoon_2024_03_05 given w)
  = Raise ValueError /\
  test_png (snd (run eastern afternoon_2024_03_05 afternoon_2024_03_05 given w))
  = None.
Proof. repeat split; vm_compute; reflexivity. Qed.

(** ** Missing covariates *)

Lemma gridpoint_at_without_temperature (args : arguments)
      (precip temp humid : list sample) (curTime : datetime) (w : world) :
  resolved Temperature (resolve curTime precip temp humid) = Py.None_ ->
  fst (gridpoint_at args precip temp humid curTime w) = Raise TypeError.
Proof.
  intros Hnone. rewrite gridpoint_at_unfold. rewrite Hnone. reflexivity.
Qed.

(** The diagnostic appears only with [--debug-output]. *)
Lemma diagnostic_only_when_debugging (args : arguments)
      (cur : Py.value * Py.value * Py.value) (w : world) :
  stdout (snd (report_missing args cur w))
  = if debug_output args
       && (Py.is_None (resolved Precipitation cur)
           || Py.is_None (resolved Temperature cur)
           || Py.is_None (resolved Humidity cur))
    then stdout w ++ [NoDataFor (resolved Precipitation cur)
                                (resolved Temperature cur)
                                (resolved Humidity cur)]
    else stdout w.
Proof.
  destruct cur as [[p t] h]. unfold report_missing, printd. simpl.
  destruct (debug_output args), (Py.is_None p || Py.is_None t || Py.is_None h);
    reflexivity.
Qed.

(** C7 (defect). A missing covariate is reported only with
    [--debug-output], but it is fatal: without a temperature the first grid
    point already fails in [convertCToF] with [TypeError], and without a
    precipitation value the grid is built but [drawGraph] fails in
    [getLinePoints] with [TypeError]; in both runs no image is produced. *)
Theorem missing_covariate_is_fatal :
  let run_on := fun debug doc =>
    run eastern afternoon_2024_03_05 afternoon_2024_03_05 (test_run debug None)
        (world_with None (Ok doc)) in
  fst (run_on true forecast_without_temperature) = Raise TypeError /\
  stdout (snd (run_on true forecast_without_temperature))
  = [Retrieving "weather_cache.json"; NoDataFor (Py.Int 10) Py.None_ (Py.Int 80)] /\
  stdout (snd (run_on false forecast_without_temperature)) = [] /\
  test_png (snd (run_on true forecast_without_temperature)) = None /\
  fst (run_on true forecast_without_precipitation) = Raise TypeError /\
  List.length (stdout (snd (run_on true forecast_without_precipitation))) = 51%nat /\
  test_png (snd (run_on true forecast_without_precipitation)) = None.
Proof. repeat split; vm_compute; reflexivity. Qed.

(** * Further properties *)

(** ** The resampling loop *)

(** X1. The index loop shared by the three series does not let them
    interact: the value resolved for a covariate is the one the loop would
    resolve with the two other series empty. *)
Theorem covariates_do_not_interact (t : datetime) (precip temp humid : list sample) :
  let cur := resolve t precip temp humid in
  resolved Precipitation cur = resolved Precipitation (resolve t precip [] []) /\
  resolved Temperature cur = resolved Temperature (resolve t [] temp []) /\
  resolved Humidity cur = resolved Humidity (resolve t [] [] humid).
Proof.
  intros cur. unfold cur. rewrite !resolve_hold. repeat split.
Qed.

(** X2. The loop never invents a value: on an empty series the covariate is
    unset, and on any other series (sorted or not, with or without nulls) it
    is the value of one of the samples of that series. *)
Theorem resolved_value_is_a_sample_value (t : datetime)
        (precip temp humid : list sample) (c : covariate) :
  let series := series_of c precip temp humid in
  let v := resolved c (resolve t precip temp humid) in
  match series with
  | [] => v = Py.None_
  | _ :: _ => exists s, In s series /\ v = value s
  end.
Proof.
  intros series v.
  destruct series as [|s0 rest] eqn:E.
  - unfold v. rewrite resolve_hold. fold series. rewrite E. reflexivity.
  - assert (Hne : series_of c precip temp humid <> []) by (fold series; congruence).
    destruct (resolved_source t precip temp humid c Hne) as (s & Hin & Hs).
    exists s. fold series in Hin. rewrite E in Hin. auto.
Qed.

Lemma hold_from_same_starts (t1 t2 : datetime) (series : list sample) (cur : Py.value) :
  (forall s, In s series -> dt_geb t1 (validTime s) = dt_geb t2 (validTime s)) ->
  hold_from t1 series cur = hold_from t2 series cur.
Proof.
  revert cur. induction series as [|a series IH]; intros cur Hsame.
  - reflexivity.
  - change (hold_from t1 series (hold_step t1 cur a)
            = hold_from t2 series (hold_step t2 cur a)).
    replace (hold_step t2 cur a) with (hold_step t1 cur a)
      by (unfold hold_step; rewrite (Hsame a) by (now left); reflexivity).
    apply IH. intros s Hs. apply Hsame. now right.
Qed.

(** X3. The value is held between sample starts: two grid times with no
    validity start after the first and up to the second resolve to the same
    value, for any series. *)
Theorem value_is_held_between_starts (t1 t2 : datetime)
        (precip temp humid : list sample) (c : covariate) :
  to_us t1 <= to_us t2 ->
  (forall s, In s (series_of c precip temp humid) ->
             ~ (to_us t1 < to_us (validTime s) <= to_us t2)) ->
  resolved c (resolve t1 precip temp humid) = resolved c (resolve t2 precip temp humid).
Proof.
  intros Hle Hnone. rewrite !resolve_hold. apply hold_from_same_starts.
  intros s Hs. specialize (Hnone s Hs). unfold dt_geb.
  destruct (Z.leb_spec (to_us (validTime s)) (to_us t1)),
           (Z.leb_spec (to_us (validTime s)) (to_us t2)); try reflexivity; lia.
Qed.

Lemma value_is_held_between_starts_witness :
  let t0 := noon_2024_03_05 in
  resolved Temperature (resolve (dt_add t0 (timedelta 0 0 30)) [] (scenario_temp t0) [])
  = resolved Temperature (resolve (dt_add t0 (timedelta 0 1 30)) [] (scenario_temp t0) []).
Proof.
  apply (value_is_held_between_starts
           (dt_add noon_2024_03_05 (timedelta 0 0 30))
           (dt_add noon_2024_03_05 (timedelta 0 1 30))
           [] (scenario_temp noon_2024_03_05) [] Temperature).
  - vm_compute. discriminate.
  - intros s [<-|[<-|[]]]; vm_compute; intros [H1 H2];
      first [now apply H1 | now apply H2 | discriminate].
Defined.

(** X4. With an empty temperature series the first pass of the loop already
    fails: [convertCToF(None)] raises [TypeError], nothing is appended, and
    the other two series do not matter. *)
Theorem empty_temperature_series_stops_the_loop (args : arguments)
        (limit start : datetime) (precip humid : list sample)
        (acc : list gridpoint) (w : world) :
  to_us start < to_us limit ->
  fst (halfHourValues args limit precip [] humid start acc w) = Raise TypeError.
Proof.
  intros Hlt. rewrite halfHourValues_loop.
  unfold dt_ltb. apply Z.ltb_lt in Hlt. rewrite Hlt.
  rewrite gridpoint_at_unfold.
  assert (Hnone : resolved Temperature (resolve start precip [] humid) = Py.None_).
  { rewrite resolve_hold. reflexivity. }
  rewrite Hnone. reflexivity.
Qed.

Lemma empty_temperature_series_stops_the_loop_witness :
  fst (halfHourValues quiet (oneDayHence noon_2024_03_05) [] []
                      (scenario_temp noon_2024_03_05) noon_2024_03_05 []
                      (world_with None offline))
  = Raise TypeError.
Proof.
  apply (empty_temperature_series_stops_the_loop quiet (oneDayHence noon_2024_03_05)
           noon_2024_03_05 [] (scenario_temp noon_2024_03_05) []
           (world_with None offline)).
  vm_compute. reflexivity.
Defined.

Lemma numeric_resolved (t : datetime) (precip temp humid : list sample) (c : covariate) :
  series_of c precip temp humid <> [] ->
  numeric (series_of c precip temp humid) ->
  Py.is_None (resolved c (resolve t precip temp humid)) = false.
Proof.
  intros Hne Hnum. rewrite resolve_hold, hold_from_numeric by assumption.
  destruct (series_of c precip temp humid); [congruence | reflexivity].
Qed.

Lemma halfHourValues_complete (args : arguments) (limit : datetime)
      (precip temp humid : list sample) :
  (forall c, series_of c precip temp humid <> [] /\
             numeric (series_of c precip temp humid)) ->
  forall n curTime acc w grid w',
    steps_left limit curTime = n ->
    halfHourValues args limit precip temp humid curTime acc w = (Ok grid, w') ->
    stdout w' = stdout w /\
    exists points,
      grid = acc ++ points /\
      Forall (fun p => Py.is_None (probabilityOfPrecipitation p) = false /\
                       Py.is_None (relativeHumidity p) = false) points.
Proof.
  intros Hfull n. induction n as [|n IH]; intros curTime acc w grid w' Hn Hrun;
    rewrite halfHourValues_loop in Hrun;
    destruct (dt_ltb curTime limit) eqn:Hlt.
  - rewrite steps_left_step in Hn by assumption. discriminate.
  - inversion Hrun; subst. split; [reflexivity|]. exists []. now rewrite app_nil_r.
  - rewrite gridpoint_at_unfold in Hrun.
    destruct (convertCToF _) as [f|e] eqn:Hconv; [|discriminate].
    rewrite steps_left_step in Hn by assumption. injection Hn as Hn.
    pose proof (diagnostic_only_when_debugging args
                  (resolve curTime precip temp humid) w) as Hout.
    destruct (Hfull Precipitation) as [HneP HnumP].
    destruct (Hfull Temperature) as [HneT HnumT].
    destruct (Hfull Humidity) as [HneH HnumH].
    rewrite (numeric_resolved curTime precip temp humid Precipitation HneP HnumP),
      (numeric_resolved curTime precip temp humid Temperature HneT HnumT),
      (numeric_resolved curTime precip temp humid Humidity HneH HnumH) in Hout.
    rewrite andb_false_r in Hout.
    destruct (IH _ _ _ _ _ Hn Hrun) as (Hstd & points & -> & Hall).
    split; [congruence|].
    eexists (_ :: points). split; [rewrite <- app_assoc; reflexivity|].
    constructor; [|assumption]. simpl.
    split; [exact (numeric_resolved _ _ _ _ Precipitation HneP HnumP)
           | exact (numeric_resolved _ _ _ _ Humidity HneH HnumH)].
  - rewrite steps_left_done in Hn by assumption. discriminate.
Qed.

(** X5. When each of the three retained series is non-empty and holds
    numbers only, a completed loop has printed no diagnostic (even with
    [--debug-output]) and every grid point carries a precipitation and a
    humidity value, so the polylines of [drawGraph] meet no [None]. *)
Theorem complete_series_give_a_complete_grid (args : arguments)
        (limit start : datetime) (precip temp humid : list sample)
        (w w' : world) (grid : list gridpoint) :
  (forall c, series_of c precip temp humid <> [] /\
             numeric (series_of c precip temp humid)) ->
  halfHourValues args limit precip temp humid start [] w = (Ok grid, w') ->
  stdout w' = stdout w /\
  Forall (fun p => Py.is_None (probabilityOfPrecipitation p) = false /\
                   Py.is_None (relativeHumidity p) = false) grid.
Proof.
  intros Hfull Hrun.
  destruct (halfHourValues_complete args limit precip temp humid Hfull
              _ start [] w grid w' eq_refl Hrun) as (Hstd & points & -> & Hall).
  split; assumption.
Qed.

Lemma complete_series_give_a_complete_grid_witness :
  let r := halfHourValues verbose (oneDayHence noon_2024_03_05) scenario_precip
                          (scenario_temp noon_2024_03_05) scenario_humid
                          noon_2024_03_05 [] (world_with None offline) in
  stdout (snd r) = [] /\
  Forall (fun p => Py.is_None (probabilityOfPrecipitation p) = false /\
                   Py.is_None (relativeHumidity p) = false)
         (match fst r with Ok grid => grid | Raise _ => [] end).
Proof.
  intros r. unfold r.
  destruct (halfHourValues verbose (oneDayHence noon_2024_03_05) scenario_precip
              (scenario_temp noon_2024_03_05) scenario_humid noon_2024_03_05 []
              (world_with None offline)) as [[grid|e] w'] eqn:Hrun.
  - apply (complete_series_give_a_complete_grid verbose (oneDayHence noon_2024_03_05)
             noon_2024_03_05 scenario_precip (scenario_temp noon_2024_03_05)
             scenario_humid (world_with None offline) w' grid).
    + clear Hrun. intros c.
      destruct c; split; try (intros H; discriminate H); repeat constructor.
    + exact Hrun.
  - vm_compute in Hrun. discriminate.
Defined.

(** ** Reading the forecast document *)

(** X6. A validity text that does not match [isoPat] makes
    [extractTimeValues] raise [TypeError] (the comparison of [oneDayHence]
    with [None]) as soon as the entries before it have been read. *)
Theorem unreadable_validity_text_raises (localTz : tzinfo) (limit : datetime)
        (before after : list Forecast.entry) (e : Forecast.entry)
        (samples : list sample) :
  Forall2 (reads_as localTz) before samples ->
  isoPat (Forecast.validTime e) = None ->
  extractTimeValues localTz limit (before ++ e :: after) = Raise TypeError.
Proof.
  intros Hreads Hbad.
  induction Hreads as [|b s before samples [Htime Hval] _ IH]; simpl.
  - unfold extractTimeFromDuration. rewrite Hbad. reflexivity.
  - rewrite Htime. simpl. destruct (dt_geb limit (validTime s)).
    + rewrite IH. reflexivity.
    + exact IH.
Qed.

Lemma unreadable_validity_text_raises_witness :
  extractTimeValues eastern (oneDayHence noon_2024_03_05)
                    ([entry "2024-03-05T16:00:00+00:00/PT1H" (Py.Int 1)]
                     ++ entry "2024-03-05 17:00" (Py.Int 2)
                     :: [entry "2024-03-05T18:00:00+00:00/PT1H" (Py.Int 3)])
  = Raise TypeError.
Proof.
  apply (unreadable_validity_text_raises eastern (oneDayHence noon_2024_03_05)
           [entry "2024-03-05T16:00:00+00:00/PT1H" (Py.Int 1)]
           [entry "2024-03-05T18:00:00+00:00/PT1H" (Py.Int 3)]
           (entry "2024-03-05 17:00" (Py.Int 2))
           [ {| value := Py.Int 1; validTime := mkdatetime 738950 11 0 0 0 |} ]).
  - repeat constructor.
  - reflexivity.
Defined.

Lemma filter_sorted_prefix (limit : datetime) (samples : list sample) :
  ascending samples ->
  exists dropped,
    samples = filter (fun s => dt_geb limit (validTime s)) samples ++ dropped /\
    forall s, In s dropped -> to_us limit < to_us (validTime s).
Proof.
  unfold ascending. induction 1 as [|a samples Hsorted IH Hall]; simpl.
  - exists []. split; [reflexivity | contradiction].
  - destruct (dt_geb limit (validTime a)) eqn:E.
    + destruct IH as (dropped & Heq & Hlate). exists dropped. split.
      * simpl. now rewrite <- Heq.
      * assumption.
    + exists (a :: samples).
      unfold dt_geb in E. apply Z.leb_gt in E.
      rewrite Forall_forall in Hall.
      assert (Hnone : filter (fun s => dt_geb limit (validTime s)) samples = []).
      { clear IH Hsorted. induction samples as [|b samples IHs]; [reflexivity|].
        simpl. assert (Hb : dt_geb limit (validTime b) = false).
        { unfold dt_geb. apply Z.leb_gt.
          specialize (Hall b (or_introl eq_refl)). lia. }
        rewrite Hb. apply IHs. intros x Hx. apply Hall. now right. }
      rewrite Hnone. split; [reflexivity|].
      intros s [<-|Hs]; [assumption|]. specialize (Hall s Hs). lia.
Qed.

Lemma ascending_prefix (kept dropped : list sample) :
  ascending (kept ++ dropped) -> ascending kept.
Proof.
  unfold ascending. induction kept as [|a kept IH]; intros H; [constructor|].
  inversion H as [|? ? Hrest Hall]; subst. constructor.
  - now apply IH.
  - rewrite Forall_forall in *. intros x Hx. apply Hall. apply in_or_app. now left.
Qed.

(** X7. Of a series in ascending order [extractTimeValues] retains an
    initial segment: the samples up to the horizon, still in ascending order,
    followed in the document only by samples that start after it. *)
Theorem retained_is_an_initial_segment (localTz : tzinfo) (limit : datetime)
        (values : list Forecast.entry) (samples : list sample) :
  Forall2 (reads_as localTz) values samples ->
  ascending samples ->
  exists kept dropped,
    extractTimeValues localTz limit values = Ok kept /\
    samples = kept ++ dropped /\
    ascending kept /\
    (forall s, In s kept -> to_us (validTime s) <= to_us limit) /\
    (forall s, In s dropped -> to_us limit < to_us (validTime s)).
Proof.
  intros Hreads Hasc.
  destruct (filter_sorted_prefix limit samples Hasc) as (dropped & Heq & Hlate).
  exists (filter (fun s => dt_geb limit (validTime s)) samples), dropped.
  split; [now apply extractTimeValues_filter|].
  split; [assumption|]. split; [|split].
  - apply (ascending_prefix _ dropped). now rewrite <- Heq.
  - intros s Hs. apply filter_In in Hs. destruct Hs as [_ Hs].
    unfold dt_geb in Hs. now apply Z.leb_le.
  - assumption.
Qed.

Lemma retained_is_an_initial_segment_witness :
  let values := [ entry "2024-03-05T11:00:00-05:00/PT1H" (Py.Int 10);
                  entry "2024-03-07T11:00:00-05:00/PT1H" (Py.Float 12.5) ] in
  let samples := [ {| value := Py.Int 10; validTime := mkdatetime 738950 11 0 0 0 |};
                   {| value := Py.Float 12.5; validTime := mkdatetime 738952 11 0 0 0 |} ] in
  exists kept dropped,
    extractTimeValues eastern (oneDayHence noon_2024_03_05) values = Ok kept /\
    samples = kept ++ dropped /\
    ascending kept /\
    (forall s, In s kept -> to_us (validTime s) <= to_us (oneDayHence noon_2024_03_05)) /\
    (forall s, In s dropped -> to_us (oneDayHence noon_2024_03_05) < to_us (validTime s)).
Proof.
  apply (retained_is_an_initial_segment eastern (oneDayHence noon_2024_03_05)).
  - repeat constructor.
  - repeat constructor. vm_compute. discriminate.
Defined.

Lemma list_ascii_of_string_app (a b : string) :
  list_ascii_of_string (a ++ b) = list_ascii_of_string a ++ list_ascii_of_string b.
Proof. induction a as [|c a IH]; simpl; [reflexivity | now rewrite IH]. Qed.

Lemma isoPat_prefix (s suffix : string) (g : iso_groups) :
  isoPat s = Some g -> isoPat (s ++ suffix) = Some g.
Proof.
  unfold isoPat. rewrite list_ascii_of_string_app.
  generalize (list_ascii_of_string suffix) as rest.
  generalize (list_ascii_of_string s) as l.
  intros l rest.
  do 25 (destruct l as [|? l]; [discriminate|]).
  intros H. exact H.
Qed.

(** X8. Only the first 25 characters of a validity text count: once a text
    matches [isoPat], whatever follows the zone (the [/PT1H] duration, or
    anything else) does not change what [extractTimeFromDuration] returns. *)
Theorem text_after_the_zone_is_ignored (localTz : tzinfo) (s suffix : string)
        (g : iso_groups) :
  isoPat s = Some g ->
  extractTimeFromDuration localTz (s ++ suffix) = extractTimeFromDuration localTz s.
Proof.
  intros H. unfold extractTimeFromDuration.
  now rewrite (isoPat_prefix s suffix g H), H.
Qed.

Lemma text_after_the_zone_is_ignored_witness :
  extractTimeFromDuration eastern ("2024-03-05T11:00:00-05:00" ++ "/P7DT3H")
  = extractTimeFromDuration eastern "2024-03-05T11:00:00-05:00".
Proof.
  apply (text_after_the_zone_is_ignored eastern "2024-03-05T11:00:00-05:00" "/P7DT3H"
           {| g_year := 2024; g_month := 3; g_day := 5; g_hour := 11;
              g_minute := 0; g_second := 0; g_west := true; g_tzhour := 5;
              g_tzminute := 0 |}).
  reflexivity.
Defined.

(** ** What a run does to the world *)

Section Preserved.

Variable R : world -> world -> Prop.
Hypothesis R_refl : forall w, R w w.
Hypothesis R_trans : forall w1 w2 w3, R w1 w2 -> R w2 w3 -> R w1 w3.





End Preserved.

Lemma process_prepare (localTz : tzinfo) (args : arguments)
      (localNow start : datetime) (doc : Forecast.t) (w : world) :
  process localTz args localNow start doc w
  = iobind (prepare localTz args localNow start doc)
           (fun img => iobind (output args img) (fun _ => ioret img)) w.
Proof.
  unfold process, prepare, iobind, lift.
  destruct (extractTimeFromDuration localTz (Forecast.updateTime doc)); [|reflexivity].
  destruct (extractTimeValues localTz _ (Forecast.probabilityOfPrecipitation doc));
    [|reflexivity].
  destruct (extractTimeValues localTz _ (Forecast.temperature doc)); [|reflexivity].
  destruct (extractTimeValues localTz _ (Forecast.relativeHumidity doc)); [|reflexivity].
  destruct (halfHourValues _ _ _ _ _ _ _ _) as [[grid|e] w1]; [|reflexivity].
  destruct (drawGraph _ _ _ _ _); reflexivity.
Qed.





(** A run, stage by stage. *)
Lemma run_stages (localTz : tzinfo) (localNow laterNow : datetime)
      (given : command_line) (w : world) :
  run localTz localNow laterNow given w
  = match parse_args given with
    | Raise e => (Raise e, w)
    | Ok args =>
        match measureStart localNow with
        | Raise e => (Raise e, w)
        | Ok start =>
            match load_weather localTz args localNow laterNow w with
            | (Ok doc, w1) => process localTz args localNow start doc w1
            | (Raise e, w1) => (Raise e, w1)
            end
        end
    end.
Proof.
  unfold run, script, iobind, lift.
  destruct (parse_args given); [|reflexivity].
  destruct (measureStart localNow); reflexivity.
Qed.









(** ** The cache, beyond the two cases of the staleness test *)

(** X12. A cache file whose [updateTime] does not match [isoPat] is never
    repaired: the staleness test adds a [timedelta] to [None], every run
    fails there with [TypeError], nothing is requested and the file stays as
    it is. *)
Theorem unreadable_cache_stops_the_run (localTz : tzinfo) (localNow laterNow : datetime)
        (given : command_line) (args : arguments) (w : world) (doc : Forecast.t) :
  parse_args given = Ok args ->
  valid_datetime localNow ->
  files w "weather_cache.json" = Some doc ->
  isoPat (Forecast.updateTime doc) = None ->
  let r := run localTz localNow laterNow given w in
  fst r = Raise TypeError /\ fetches (snd r) = fetches w /\ files (snd r) = files w.
Proof.
  intros Hparse Hvalid Hfile Hbad r. unfold r. rewrite run_stages, Hparse.
  rewrite (measureStart_value localNow Hvalid).
  unfold load_weather, get_file, printd.
  change (weather_cachefile localNow) with "weather_cache.json"%string.
  unfold iobind, ioret, lift. rewrite Hfile.
  unfold extractTimeFromDuration. rewrite Hbad.
  destruct (debug_output args); simpl; repeat split.
Qed.

Lemma unreadable_cache_stops_the_run_witness :
  let w := world_with (Some unreadable_forecast) (Ok sample_forecast) in
  let r := run eastern afternoon_2024_03_05 next_afternoon (test_run true None) w in
  fst r = Raise TypeError /\ fetches (snd r) = fetches w /\ files (snd r) = files w.
Proof.
  apply (unreadable_cache_stops_the_run eastern afternoon_2024_03_05 next_afternoon
           (test_run true None)
           {| test := true; no_epaper := true; current_time := None;
              debug_output := true |}
           (world_with (Some unreadable_forecast) (Ok sample_forecast))
           unreadable_forecast).
  - reflexivity.
  - unfold valid_datetime. simpl. lia.
  - reflexivity.
  - reflexivity.
Defined.

(** X13. When there is no cache file and the request fails, the exception
    ends the run and no cache file is created: the file is opened for writing
    only after the answer has arrived. *)
Theorem failed_request_creates_no_cache (localTz : tzinfo)
        (localNow laterNow : datetime) (given : command_line) (args : arguments)
        (w : world) (e : exn) :
  parse_args given = Ok args ->
  valid_datetime localNow ->
  files w "weather_cache.json" = None ->
  noaa w = Raise e ->
  let r := run localTz localNow laterNow given w in
  fst r = Raise e /\ fetches (snd r) = S (fetches w) /\ files (snd r) = files w.
Proof.
  intros Hparse Hvalid Hfile Hfail r. unfold r. rewrite run_stages, Hparse.
  rewrite (measureStart_value localNow Hvalid).
  unfold load_weather, get_file, printd, retrieve_weather, get_forecasts.
  change (weather_cachefile localNow) with "weather_cache.json"%string.
  unfold iobind, ioret, lift. rewrite Hfile.
  destruct (debug_output args); simpl; rewrite Hfail; simpl; repeat split.
Qed.

Lemma failed_request_creates_no_cache_witness :
  let w := world_with None offline in
  let r := run eastern afternoon_2024_03_05 next_afternoon (test_run true None) w in
  fst r = Raise (Exception_ "offline") /\
  fetches (snd r) = S (fetches w) /\ files (snd r) = files w.
Proof.
  apply (failed_request_creates_no_cache eastern afternoon_2024_03_05 next_afternoon
           (test_run true None)
           {| test := true; no_epaper := true; current_time := None;
              debug_output := true |}
           (world_with None offline) (Exception_ "offline")).
  - reflexivity.
  - unfold valid_datetime. simpl. lia.
  - reflexivity.
  - reflexivity.
Defined.

(** X14. Write, then read: after [load_weather] has fetched a document into
    an empty cache, a later call (on any day, with any options) whose clock
    is within 24 hours of the document's [updateTime] returns that same
    document from the file and sends no second request. *)
Theorem fetched_document_is_reused (localTz : tzinfo) (args args' : arguments)
        (localNow laterNow localNow' laterNow' : datetime) (w : world)
        (fetched : Forecast.t) (updated : datetime) :
  files w "weather_cache.json" = None ->
  noaa w = Ok fetched ->
  extractTimeFromDuration localTz (Forecast.updateTime fetched) = Ok (Some updated) ->
  to_us laterNow' <= to_us updated + timedelta 0 24 0 ->
  exists w1 w2,
    load_weather localTz args localNow laterNow w = (Ok fetched, w1) /\
    load_weather localTz args' localNow' laterNow' w1 = (Ok fetched, w2) /\
    fetches w2 = S (fetches w).
Proof.
  intros Hfile Hnoaa Hparse Hage.
  destruct (load_weather_fetches localTz args localNow laterNow w fetched Hnoaa
              (or_introl Hfile)) as (w1 & Hload & Hcount & Hcache & _).
  exists w1. eexists. split; [exact Hload|]. split.
  - apply (load_weather_fresh localTz args' localNow' laterNow' w1 fetched updated);
      assumption.
  - destruct (untouched_printd args' (LoadingCached (weather_cachefile localNow')) w1)
      as (_ & _ & Hn).
    rewrite Hn. exact Hcount.
Qed.

Lemma fetched_document_is_reused_witness :
  exists w1 w2,
    load_weather eastern quiet afternoon_2024_03_05 afternoon_2024_03_05
                 (world_with None (Ok sample_forecast)) = (Ok sample_forecast, w1) /\
    load_weather eastern verbose next_afternoon (mkdatetime 738951 11 0 0 0) w1
    = (Ok sample_forecast, w2) /\
    fetches w2 = S (fetches (world_with None (Ok sample_forecast))).
Proof.
  apply (fetched_document_is_reused eastern quiet verbose afternoon_2024_03_05
           afternoon_2024_03_05 next_afternoon (mkdatetime 738951 11 0 0 0)
           (world_with None (Ok sample_forecast)) sample_forecast noon_2024_03_05).
  - reflexivity.
  - reflexivity.
  - vm_compute. reflexivity.
  - vm_compute. discriminate.
Defined.

(** ** The chart *)

(** X15. With [--current-time N] (N not negative) the marker is drawn for
    [beginTime] plus N hours as long as that stays within the day of
    [beginTime]; when [beginTime.hour + N] reaches 24, [replace] raises
    [ValueError]. *)
Theorem spoofed_marker_time (args : arguments) (beginTime curTime : datetime) (n : Z) :
  current_time args = Some n ->
  valid_datetime beginTime ->
  0 <= n ->
  markerTime args beginTime curTime
  = if hour beginTime + n <=? 23
    then Ok (dt_add beginTime (timedelta 0 n 0))
    else Raise ValueError.
Proof.
  intros Hn Hvalid Hpos.
  destruct (Z.leb_spec (hour beginTime + n) 23).
  - now apply markerTime_same_day.
  - apply (markerTime_past_midnight args beginTime curTime n); [assumption | lia].
Qed.

Lemma spoofed_marker_time_witness :
  markerTime {| test := true; no_epaper := true; current_time := Some 5;
                debug_output := false |}
             noon_2024_03_05 afternoon_2024_03_05
  = Ok (mkdatetime 738950 17 0 0 0).
Proof.
  apply (spoofed_marker_time
           {| test := true; no_epaper := true; current_time := Some 5;
              debug_output := false |}
           noon_2024_03_05 afternoon_2024_03_05 5).
  - reflexivity.
  - unfold valid_datetime. simpl. lia.
  - lia.
Defined.

Lemma mapM_Ok {A B : Type} (f : A -> result B) (l : list A) (out : list B) :
  mapM f l = Ok out -> Forall2 (fun a b => f a = Ok b) l out.
Proof.
  revert out. induction l as [|a l IH]; intros out H; simpl in H.
  - injection H as <-. constructor.
  - destruct (f a) as [b|e] eqn:Ea; [|discriminate]. simpl in H.
    destruct (mapM f l) as [bs|e]; [|discriminate]. simpl in H.
    injection H as <-. constructor; [assumption | now apply IH].
Qed.

Lemma Forall2_length_eq {A B : Type} (R : A -> B -> Prop) (l : list A) (l' : list B) :
  Forall2 R l l' -> List.length l' = List.length l.
Proof. induction 1; simpl; congruence. Qed.

Lemma arith_not_None (fz : Z -> Z -> Z) (ff : float -> float -> float)
      (a b c : Py.value) :
  Py.arith fz ff a b = Ok c -> Py.is_None a = false.
Proof. destruct a, b; simpl; intros H; try discriminate; reflexivity. Qed.

Lemma getLinePoints_Ok (values : list (datetime * Py.value))
        (timeToXFunc : datetime -> result float)
        (yScaleFactor minValue yAdd : option Py.value)
        (points : list (float * Py.value * Py.value)) :
  getLinePoints values timeToXFunc yScaleFactor minValue yAdd = Ok points ->
  List.length points = List.length values /\
  map snd points = map snd values /\
  Forall2 (fun value point => timeToXFunc (fst value) = Ok (fst (fst point)))
          values points /\
  Forall (fun value => Py.is_None (snd value) = false) values.
Proof.
  unfold getLinePoints. intros H. apply mapM_Ok in H.
  split; [exact (Forall2_length_eq _ _ _ H)|].
  induction H as [|value point values points Hpoint _ IH]; simpl.
  - repeat split; constructor.
  - destruct (timeToXFunc (fst value)) as [x|e] eqn:Ex; [|discriminate].
    simpl in Hpoint.
    destruct (Py.sub (snd value) _) as [d|e] eqn:Ed; [|discriminate].
    simpl in Hpoint.
    destruct (Py.mul d _) as [p|e]; [|discriminate]. simpl in Hpoint.
    destruct (Py.add _ p) as [y|e]; [|discriminate]. simpl in Hpoint.
    injection Hpoint as <-. destruct IH as (Hvals & Hxs & Hnum).
    split; [simpl; now rewrite Hvals|]. split.
    + constructor; assumption.
    + constructor; [|assumption]. exact (arith_not_None _ _ _ _ _ Ed).
Qed.

(** X16. [getLinePoints] returns one point per value, in order: the x of the
    point is [timeToXFunc] of the time, its third component is the value
    itself.  It returns only when no value is [None]: a [None] among the
    values is an exception ([value - minValue] is a [TypeError]). *)
Theorem getLinePoints_points (values : list (datetime * Py.value))
        (timeToXFunc : datetime -> result float)
        (yScaleFactor minValue yAdd : option Py.value)
        (points : list (float * Py.value * Py.value)) :
  getLinePoints values timeToXFunc yScaleFactor minValue yAdd = Ok points ->
  List.length points = List.length values /\
  map snd points = map snd values /\
  Forall2 (fun value point => timeToXFunc (fst value) = Ok (fst (fst point)))
          values points /\
  Forall (fun value => Py.is_None (snd value) = false) values.
Proof. apply getLinePoints_Ok. Qed.

Lemma getLinePoints_points_witness :
  let values := [ (noon_2024_03_05, Py.Int 10);
                  (dt_add noon_2024_03_05 (timedelta 0 0 30), Py.Float 40.5) ] in
  let timeToXFunc := timeToGraphX noon_2024_03_05 (timedelta 1 1 0) in
  let points := [ (43%float, Py.Float 350, Py.Int 10);
                  (54.079999999999998%float, Py.Float 273.75, Py.Float 40.5) ] in
  List.length points = List.length values /\
  map snd points = map snd values /\
  Forall2 (fun value point => timeToXFunc (fst value) = Ok (fst (fst point)))
          values points /\
  Forall (fun value => Py.is_None (snd value) = false) values.
Proof.
  apply (getLinePoints_points
           [ (noon_2024_03_05, Py.Int 10);
             (dt_add noon_2024_03_05 (timedelta 0 0 30), Py.Float 40.5) ]
           (timeToGraphX noon_2024_03_05 (timedelta 1 1 0))
           (Some (Py.Float (-2.5))) None (Some (Py.Int 375))).
  vm_compute. reflexivity.
Defined.

Ltac bind_inv H :=
  repeat match type of H with
         | rbind ?c _ = Ok _ =>
             let E := fresh "E" in
             destruct c eqn:E; [cbn beta iota zeta delta [rbind] in H | discriminate H]
         end.

(** What a returned chart was computed from. *)
Lemma drawGraph_Ok (args : arguments) (date curTime : datetime)
      (whenUpdated : option datetime) (graphData : list gridpoint) (img : chart) :
  drawGraph args date curTime whenUpdated graphData = Ok img ->
  graphData <> [] /\ whenUpdated <> None /\
  tempExtents (map temperature graphData) = Ok (tempExtents_of img) /\
  (exists mark, minXes mark = Ok (marker_band img)) /\
  List.length (quarter_marks img) = 5%nat /\
  exists timeToX percentScale degreeScale,
    getLinePoints (map (fun val => (time val, probabilityOfPrecipitation val)) graphData)
                  timeToX (Some percentScale) None (Some (Py.Int 375))
    = Ok (precip_line img) /\
    getLinePoints (map (fun val => (time val, Py.Float (temperature val))) graphData)
                  timeToX (Some degreeScale) (Some (fst (tempExtents_of img)))
                  (Some (Py.Int 375))
    = Ok (temp_line img) /\
    getLinePoints (map (fun val => (time val, relativeHumidity val)) graphData)
                  timeToX (Some percentScale) None (Some (Py.Int 375))
    = Ok (humid_line img).
Proof.
  unfold drawGraph. intros H. bind_inv H.
  injection H as <-.
  cbn [tempExtents_of marker_band quarter_marks precip_line temp_line humid_line].
  split; [destruct graphData; [discriminate E | discriminate]|].
  split.
  { destruct whenUpdated; [discriminate|].
    match goal with
    | Hnone : Raise AttributeError = Ok _ |- _ => discriminate Hnone
    end. }
  split; [reflexivity|].
  split; [eauto|].
  split.
  { match goal with
    | Hq : mapM _ [0; 1; 2; 3; 4] = Ok _ |- _ =>
        apply mapM_Ok, Forall2_length_eq in Hq; exact Hq
    end. }
  do 3 eexists. repeat split; eassumption.
Qed.



(** X18. In every chart that [drawGraph] returns, each of the three
    polylines has one point per grid point, in order, labelled with the grid
    point's own value, and there are five quarter-day lines.  A grid with a
    missing precipitation or humidity value, or no grid point at all, or no
    update time, never gives a chart. *)
Theorem chart_lines_follow_the_grid (args : arguments) (date curTime : datetime)
        (whenUpdated : option datetime) (graphData : list gridpoint) (img : chart) :
  drawGraph args date curTime whenUpdated graphData = Ok img ->
  map snd (precip_line img) = map probabilityOfPrecipitation graphData /\
  map snd (temp_line img) = map (fun p => Py.Float (temperature p)) graphData /\
  map snd (humid_line img) = map relativeHumidity graphData /\
  List.length (quarter_marks img) = 5%nat /\
  graphData <> [] /\ whenUpdated <> None /\
  Forall (fun p => Py.is_None (probabilityOfPrecipitation p) = false /\
                   Py.is_None (relativeHumidity p) = false) graphData.
Proof.
  intros H.
  destruct (drawGraph_Ok _ _ _ _ _ _ H)
    as (Hne & Hupd & _ & _ & Hq & tx & ps & ds & Hp & Ht & Hh).
  apply getLinePoints_Ok in Hp, Ht, Hh.
  destruct Hp as (_ & Hp & _ & Hpn), Ht as (_ & Ht & _), Hh as (_ & Hh & _ & Hhn).
  rewrite map_map in Hp, Ht, Hh. simpl in Hp, Ht, Hh.
  repeat (split; [assumption|]).
  rewrite Forall_map in Hpn, Hhn. simpl in Hpn, Hhn.
  rewrite Forall_forall in *. intros p Hin. split; [now apply Hpn | now apply Hhn].
Qed.

Lemma chart_lines_follow_the_grid_witness :
  match drawGraph quiet noon_2024_03_05 afternoon_2024_03_05
                  (Some noon_2024_03_05) two_points with
  | Ok img =>
      map snd (precip_line img) = [Py.Int 10; Py.Int 40] /\
      map snd (temp_line img) = [Py.Float 54.5; Py.Float 50] /\
      map snd (humid_line img) = [Py.Float 80.5; Py.Int 75] /\
      List.length (quarter_marks img) = 5%nat /\
      two_points <> [] /\ Some noon_2024_03_05 <> None /\
      Forall (fun p => Py.is_None (probabilityOfPrecipitation p) = false /\
                       Py.is_None (relativeHumidity p) = false) two_points
  | Raise _ => False
  end.
Proof.
  destruct (drawGraph quiet noon_2024_03_05 afternoon_2024_03_05
                      (Some noon_2024_03_05) two_points) as [img|e] eqn:H.
  - exact (chart_lines_follow_the_grid _ _ _ _ _ _ H).
  - vm_compute in H. discriminate H.
Defined.

(** X19. In every chart that [drawGraph] returns, whatever the temperatures
    (not-a-number included), the temperature scale reaches down to 50 at
    most and up to 60 at least. *)
Theorem chart_scale_covers_50_to_60 (args : arguments) (date curTime : datetime)
        (whenUpdated : option datetime) (graphData : list gridpoint) (img : chart) :
  drawGraph args date curTime whenUpdated graphData = Ok img ->
  Py.le (fst (tempExtents_of img)) (Py.Int 50) = Ok true /\
  Py.le (Py.Int 60) (snd (tempExtents_of img)) = Ok true.
Proof.
  intros H. destruct (drawGraph_Ok _ _ _ _ _ _ H) as (_ & _ & Hext & _).
  destruct (map temperature graphData) as [|a rest]; [discriminate Hext|].
  rewrite tempExtents_value in Hext. injection Hext as <-. simpl fst. simpl snd.
  destruct float_of_small_ints as (_ & H50 & H60). split.
  - match goal with
    | |- Py.le (if ?c then _ else _) _ = _ => destruct c eqn:E; [|reflexivity]
    end.
    unfold Py.le, Py.to_float. rewrite H50. simpl.
    now rewrite (FloatOrder.ltb_leb _ _ E).
  - match goal with
    | |- Py.le _ (if ?c then _ else _) = _ => destruct c eqn:E; [|reflexivity]
    end.
    unfold Py.le, Py.to_float. rewrite H60. simpl.
    now rewrite (FloatOrder.ltb_leb _ _ E).
Qed.

Lemma chart_scale_covers_50_to_60_witness :
  match drawGraph quiet noon_2024_03_05 afternoon_2024_03_05
                  (Some noon_2024_03_05) two_points with
  | Ok img => Py.le (fst (tempExtents_of img)) (Py.Int 50) = Ok true /\
              Py.le (Py.Int 60) (snd (tempExtents_of img)) = Ok true
  | Raise _ => False
  end.
Proof.
  destruct (drawGraph quiet noon_2024_03_05 afternoon_2024_03_05
                      (Some noon_2024_03_05) two_points) as [img|e] eqn:H.
  - exact (chart_scale_covers_50_to_60 _ _ _ _ _ _ H).
  - vm_compute in H. discriminate H.
Defined.

Lemma every_nth_nth {A : Type} (step : nat) (l : list A) :
  (1 <= step)%nat ->
  forall skip k,
    nth_error (every_nth step skip l) k = nth_error l (skip + k * step).
Proof.
  intros Hstep. induction l as [|x rest IH]; intros skip k.
  - simpl. destruct k, (skip + _)%nat; reflexivity.
  - destruct skip as [|s]; simpl.
    + destruct k as [|k]; simpl; [reflexivity|].
      rewrite IH.
      replace (step + k * step)%nat with (S (step - 1 + k * step)) by lia.
      reflexivity.
    + apply IH.
Qed.

(** X20. The value labels are spread over the grid: every seventh point of
    a line is labelled, counting from the first point for precipitation, the
    third for temperature and the fifth for humidity; hence no grid point
    carries the labels of two series. *)
Theorem checkpoints_are_staggered {A : Type} (points : list A) :
  (forall c k, nth_error (checkpoints c points) k
               = nth_error points (first_checkpoint c + 7 * k)) /\
  (forall c1 c2 k1 k2,
      (first_checkpoint c1 + 7 * k1 = first_checkpoint c2 + 7 * k2)%nat -> c1 = c2).
Proof.
  split.
  - intros c k. replace (7 * k)%nat with (k * 7)%nat by lia.
    destruct c; apply every_nth_nth; lia.
  - intros c1 c2 k1 k2. destruct c1, c2; simpl; intros H; try reflexivity; lia.
Qed.

Lemma append_empty (s : string) : (s ++ "")%string = s.
Proof. induction s as [|c s IH]; simpl; [reflexivity | now rewrite IH]. Qed.

Lemma strftime_hour12 (d : datetime) :
  strftime d "%I"
  = two_digits (if hour d mod 12 =? 0 then 12 else hour d mod 12).
Proof.
  unfold strftime, directive. destruct (Calendar.ord2ymd (ordinal d)) as [[y mo] da].
  simpl. first [reflexivity | apply append_empty].
Qed.

Lemma strftime_ampm (d : datetime) :
  strftime d "%p" = if hour d <? 12 then "AM"%string else "PM"%string.
Proof.
  unfold strftime, directive. destruct (Calendar.ord2ymd (ordinal d)) as [[y mo] da].
  simpl. first [reflexivity | apply append_empty].
Qed.

Lemma strftime_weekday (d : datetime) :
  strftime d "%a" = substring 0 3 (Calendar.day_name (ordinal d)).
Proof.
  unfold strftime, directive. destruct (Calendar.ord2ymd (ordinal d)) as [[y mo] da].
  simpl. first [reflexivity | apply append_empty].
Qed.

(** X21. [timeLabel] never raises on a well-formed time and writes the hour
    on the 12-hour clock: [Noon] at 12, [Midnight] at 0, otherwise the hour
    modulo 12 without the leading zero of [%I], followed by AM or PM; the
    abbreviated weekday comes first exactly when the time is on another day
    than the chart's date. *)
Theorem timeLabel_is_the_12_hour_clock (date inTime : datetime) :
  valid_datetime inTime ->
  let clock :=
    (if (hour inTime =? 12)%Z then "Noon"
     else if (hour inTime =? 0)%Z then "Midnight"
     else decimal (hour inTime mod 12)%Z ++ " "
          ++ (if (hour inTime <? 12)%Z then "AM" else "PM"))%string in
  timeLabel date inTime
  = Ok (if ordinal date =? ordinal inTime then clock
        else (substring 0 3 (Calendar.day_name (ordinal inTime)) ++ " " ++ clock)%string).
Proof.
  intros (Hh & _) clock. unfold clock, timeLabel.
  rewrite strftime_hour12, strftime_ampm, strftime_weekday.
  assert (Hcases : hour inTime = 0 \/ hour inTime = 1 \/ hour inTime = 2 \/
                   hour inTime = 3 \/ hour inTime = 4 \/ hour inTime = 5 \/
                   hour inTime = 6 \/ hour inTime = 7 \/ hour inTime = 8 \/
                   hour inTime = 9 \/ hour inTime = 10 \/ hour inTime = 11 \/
                   hour inTime = 12 \/ hour inTime = 13 \/ hour inTime = 14 \/
                   hour inTime = 15 \/ hour inTime = 16 \/ hour inTime = 17 \/
                   hour inTime = 18 \/ hour inTime = 19 \/ hour inTime = 20 \/
                   hour inTime = 21 \/ hour inTime = 22 \/ hour inTime = 23) by lia.
  destruct (ordinal date =? ordinal inTime);
    repeat (destruct Hcases as [->|Hcases]; [reflexivity|]);
    rewrite Hcases; reflexivity.
Qed.

Lemma timeLabel_is_the_12_hour_clock_witness :
  timeLabel noon_2024_03_05 (mkdatetime 738951 6 0 0 0) = Ok "Wed 6 AM"%string /\
  timeLabel noon_2024_03_05 (mkdatetime 738950 18 0 0 0) = Ok "6 PM"%string.
Proof.
  split.
  - apply (timeLabel_is_the_12_hour_clock noon_2024_03_05 (mkdatetime 738951 6 0 0 0)).
    unfold valid_datetime. simpl. lia.
  - apply (timeLabel_is_the_12_hour_clock noon_2024_03_05 (mkdatetime 738950 18 0 0 0)).
    unfold valid_datetime. simpl. lia.
Defined.

(** ** The chart of a run *)

Lemma last_cons_default {A : Type} (l : list A) (a d : A) :
  last (a :: l) d = last l a.
Proof.
  revert a d. induction l as [|b l IH]; intros a d; [reflexivity|].
  change (last (a :: b :: l) d) with (last (b :: l) d).
  now rewrite !IH.
Qed.

(** How [drawGraph] counts the hours it displays. *)
Lemma drawGraph_hours (args : arguments) (date curTime : datetime)
      (whenUpdated : option datetime) (first : gridpoint) (rest : list gridpoint)
      (img : chart) :
  drawGraph args date curTime whenUpdated (first :: rest) = Ok img ->
  exists roundBegin roundEnd hours hoursDisplayed,
    replace (time first) None (Some (if minute (time first) <? 30 then 0 else 30))
            (Some 0) (Some 0) = Ok roundBegin /\
    replace (time (last rest first))
            (Some (if 30 <=? minute (time (last rest first))
                   then hour (time (last rest first)) + 1
                   else hour (time (last rest first))))
            (Some (if minute (time (last rest first)) <? 30 then 30 else 0))
            (Some 0) (Some 0) = Ok roundEnd /\
    Py.int_truediv (dt_sub roundEnd roundBegin) (timedelta 0 1 0) = Ok hours /\
    Py.int_of_float hours = Ok hoursDisplayed /\
    List.length (hour_marks img) = Z.to_nat hoursDisplayed.
Proof.
  unfold drawGraph. cbn beta iota zeta delta [rbind].
  rewrite last_cons_default. intros H. bind_inv H.
  injection H as <-. cbn [hour_marks].
  do 4 eexists. do 2 (split; [reflexivity|]). do 2 (split; [eassumption|]).
  match goal with
  | Hm : mapM _ (map Z.of_nat (seq 0 _)) = Ok _ |- _ =>
      apply mapM_Ok, Forall2_length_eq in Hm; rewrite Hm
  end.
  now rewrite length_map, length_seq.
Qed.

(** What the chart of [prepare] was drawn from. *)
Lemma prepare_Ok (localTz : tzinfo) (args : arguments) (localNow start : datetime)
      (doc : Forecast.t) (w w' : world) (img : chart) :
  prepare localTz args localNow start doc w = (Ok img, w') ->
  exists precip temp humid updateTime grid,
    halfHourValues args (oneDayHence start) precip temp humid start [] w
    = (Ok grid, w') /\
    drawGraph args start localNow updateTime grid = Ok img.
Proof.
  unfold prepare, iobind, lift. intros H.
  destruct (extractTimeFromDuration localTz (Forecast.updateTime doc))
    as [updateTime|e]; [|discriminate H].
  destruct (extractTimeValues localTz _ (Forecast.probabilityOfPrecipitation doc))
    as [precip|e]; [|discriminate H].
  destruct (extractTimeValues localTz _ (Forecast.temperature doc))
    as [temp|e]; [|discriminate H].
  destruct (extractTimeValues localTz _ (Forecast.relativeHumidity doc))
    as [humid|e]; [|discriminate H].
  destruct (halfHourValues _ _ _ _ _ _ _ _) as [[grid|e] w1] eqn:Hgrid;
    [|clear Hgrid; discriminate H].
  exists precip, temp, humid, updateTime, grid.
  injection H as Himg <-. split; [exact Hgrid | exact Himg].
Qed.

(** The last grid time of a run: half past the hour of [measureStart], on the
    next day. *)
Lemma last_grid_time (o h : Z) :
  0 <= h < 24 ->
  dt_add {| ordinal := o; hour := h; minute := 0; second := 0; microsecond := 0 |}
         (49 * half_hour)
  = {| ordinal := o + 1; hour := h; minute := 30; second := 0; microsecond := 0 |}.
Proof.
  intros Hh. unfold dt_add, to_us, of_us, half_hour, timedelta, us_per_day,
    us_per_hour, us_per_minute, us_per_second. simpl.
  f_equal; Z.to_euclidean_division_equations; lia.
Qed.

(** X22. With a well-formed clock reading, the chart of every run that
    returns one has the same shape, whatever the forecast: 25 hour marks,
    five quarter-day lines and three polylines of 50 points each. *)
Theorem chart_of_a_run (localTz : tzinfo) (localNow laterNow : datetime)
        (given : command_line) (w : world) (img : chart) :
  valid_datetime localNow ->
  fst (run localTz localNow laterNow given w) = Ok img ->
  List.length (hour_marks img) = 25%nat /\
  List.length (quarter_marks img) = 5%nat /\
  List.length (precip_line img) = 50%nat /\
  List.length (temp_line img) = 50%nat /\
  List.length (humid_line img) = 50%nat.
Proof.
  intros Hvalid H. rewrite run_stages in H.
  destruct (parse_args given) as [args|e]; [|discriminate H].
  rewrite (measureStart_value _ Hvalid) in H.
  set (start := {| ordinal := ordinal localNow; hour := hour localNow / 12 * 12;
                   minute := 0; second := 0; microsecond := 0 |}) in *.
  destruct (load_weather localTz args localNow laterNow w) as [[doc|e] w1];
    [|discriminate H].
  rewrite process_prepare in H. unfold iobind, ioret in H.
  destruct (prepare localTz args localNow start doc w1) as [[img'|e] w2] eqn:Hprep;
    [|discriminate H].
  destruct (output args img' w2) as [[[]|e] w3]; [|discriminate H].
  simpl in H. injection H as ->.
  destruct (prepare_Ok _ _ _ _ _ _ _ _ Hprep)
    as (precip & temp & humid & updateTime & grid & Hgrid & Hdraw).
  clear Hprep.
  destruct Hvalid as (Hh & _).
  assert (Hhour : 0 <= hour localNow / 12 * 12 < 24)
    by (Z.to_euclidean_division_equations; lia).
  assert (Hstart : valid_datetime start)
    by (unfold valid_datetime, start; simpl; lia).
  assert (Hsteps : steps_left (oneDayHence start) start = 50%nat).
  { unfold steps_left, oneDayHence. rewrite to_us_dt_add.
    replace (to_us start + timedelta 1 1 0 - to_us start) with (timedelta 1 1 0) by lia.
    reflexivity. }
  destruct (halfHourValues_times _ _ _ _ _ _ _ _ _ _ _ Hsteps Hgrid)
    as (points & -> & Htimes).
  clear Hgrid. simpl app in Hdraw.
  assert (Hlen : List.length points = 50%nat).
  { rewrite <- (length_map time), Htimes. apply grid_times_length. }
  destruct (drawGraph_Ok _ _ _ _ _ _ Hdraw)
    as (_ & _ & _ & _ & Hq & tx & ps & ds & Hp & Ht & Hu).
  apply getLinePoints_Ok in Hp, Ht, Hu.
  destruct Hp as (Hp & _), Ht as (Ht & _), Hu as (Hu & _).
  rewrite length_map in Hp, Ht, Hu.
  split; [|rewrite Hp, Ht, Hu, Hlen; repeat split; assumption].
  destruct points as [|first rest]; [discriminate Hlen|].
  destruct (drawGraph_hours _ _ _ _ _ _ _ Hdraw)
    as (roundBegin & roundEnd & hours & hoursDisplayed
        & Hbegin & Hend & Hhours & Hint & Hmarks).
  assert (Hfirst : time first = start).
  { simpl in Htimes. now injection Htimes. }
  assert (Hlast : time (last rest first)
                  = {| ordinal := ordinal localNow + 1; hour := hour localNow / 12 * 12;
                       minute := 30; second := 0; microsecond := 0 |}).
  { rewrite <- (last_cons_default rest first first).
    assert (Hmap : forall (l : list gridpoint) d,
               time (last l d) = last (map time l) (time d)).
    { clear. induction l as [|p [|q l] IH]; intros d; try reflexivity. apply IH. }
    rewrite Hmap, Htimes. change 50%nat with (S 49).
    rewrite grid_times_last by assumption.
    apply last_grid_time. assumption. }
  rewrite Hfirst in Hbegin. rewrite Hlast in Hend.
  unfold replace, start in Hbegin, Hend. simpl in Hbegin, Hend.
  assert (Hcases : hour localNow / 12 * 12 = 0 \/ hour localNow / 12 * 12 = 12)
    by (Z.to_euclidean_division_equations; lia).
  rewrite Hmarks. clear - Hcases Hbegin Hend Hhours Hint.
  destruct Hcases as [Hc|Hc]; rewrite Hc in Hbegin, Hend; simpl in Hbegin, Hend;
    injection Hbegin as <-; injection Hend as <-;
    (replace (dt_sub _ _) with 90000000000 in Hhours
      by (unfold dt_sub, to_us, us_per_day, us_per_hour, us_per_minute,
            us_per_second; simpl; lia));
    vm_compute in Hhours; injection Hhours as <-;
    vm_compute in Hint; injection Hint as <-; reflexivity.
Qed.

Lemma chart_of_a_run_witness :
  exists img,
    fst (run eastern afternoon_2024_03_05 afternoon_2024_03_05 (test_run true None)
             (world_with None (Ok sample_forecast))) = Ok img /\
    List.length (hour_marks img) = 25%nat /\
    List.length (quarter_marks img) = 5%nat /\
    List.length (precip_line img) = 50%nat /\
    List.length (temp_line img) = 50%nat /\
    List.length (humid_line img) = 50%nat.
Proof.
  eexists. split; [vm_compute; reflexivity|].
  apply (chart_of_a_run eastern afternoon_2024_03_05 afternoon_2024_03_05
           (test_run true None) (world_with None (Ok sample_forecast))).
  - unfold valid_datetime. simpl. lia.
  - vm_compute. reflexivity.
Defined.
